(** * Charts agent: technical analysis service

    A shallow embedding of [charts-agent/technical_analysis.py] and the
    properties of its analysis pipeline.

    Numbers are IEEE-754 binary64 values, as in Python and NumPy: the
    embedding uses the kernel's primitive floats, so every example below is
    evaluated with the arithmetic the program runs on.  Python exceptions
    are values of an error monad carrying the exception's class name (what
    [main] prints as ["type"]).  TA-Lib and the pandas calls whose code is
    not part of the repository are interfaces the analyzer is
    parameterised by. *)

From Stdlib Require Import List Bool Arith ZArith String Lia.
From Stdlib Require Import QArith Qfield Lqa.
From Stdlib Require Import Floats.PrimFloat.
From Stdlib Require Import Numbers.Cyclic.Int63.Uint63.
Import ListNotations.

Local Close Scope Q_scope.
Local Open Scope nat_scope.
Local Open Scope string_scope.
Local Open Scope list_scope.

(* ================================================================= *)
(** ** Python values: exceptions, sequences, dictionaries, floats *)

Module Py.

(** The outcome of evaluating an expression: a value, or a raised
    exception named by its class. *)
Inductive result (A : Type) : Type :=
| Ok (a : A)
| Raise (exc : string).
Arguments Ok {A} a.
Arguments Raise {A} exc.

Definition bind {A B} (m : result A) (k : A -> result B) : result B :=
  match m with
  | Ok a => k a
  | Raise e => Raise e
  end.

(** [xs[-1]]: the last element; [IndexError] on an empty sequence. *)
Fixpoint last_item {A} (xs : list A) : result A :=
  match xs with
  | [] => Raise "IndexError"
  | [x] => Ok x
  | _ :: rest => last_item rest
  end.

(** [xs[0]]. *)
Definition first_item {A} (xs : list A) : result A :=
  match xs with
  | [] => Raise "IndexError"
  | x :: _ => Ok x
  end.

(** A [dict] with string keys: an association list in insertion order,
    one entry per key. *)
Definition dict (V : Type) : Type := list (string * V).

Fixpoint dict_get {V} (k : string) (d : dict V) : option V :=
  match d with
  | [] => None
  | (k', v) :: rest => if String.eqb k k' then Some v else dict_get k rest
  end.

(** [d[k] = v]: overwrite in place, or append a new entry. *)
Fixpoint dict_set {V} (k : string) (v : V) (d : dict V) : dict V :=
  match d with
  | [] => [(k, v)]
  | (k', v') :: rest =>
      if String.eqb k k' then (k', v) :: rest else (k', v') :: dict_set k v rest
  end.

(** [d[k]] as an expression: [KeyError] when the key is missing. *)
Definition dict_item {V} (k : string) (d : dict V) : result V :=
  match dict_get k d with
  | Some v => Ok v
  | None => Raise "KeyError"
  end.

Definition dict_values {V} (d : dict V) : list V := map snd d.

(** [sum(1 for s in values if s == v)]. *)
Definition count_eq (v : string) (values : list string) : nat :=
  List.length (filter (String.eqb v) values).

(** [bool(x)] for a float: false exactly for [0.0] and [-0.0]. *)
Definition truthy_float (x : float) : bool := negb (PrimFloat.eqb x 0%float).

(** [bool(o)] for an [Optional[float]]: [None] and zero are both false. *)
Definition truthy (o : option float) : bool :=
  match o with
  | Some x => truthy_float x
  | None => false
  end.

(** [min(a, b)] of two floats: the first argument unless the second is
    strictly smaller. *)
Definition py_min (a b : float) : float := if PrimFloat.ltb b a then b else a.

(** [float(n)] of a small non-negative integer. *)
Definition float_of_nat (n : nat) : float :=
  PrimFloat.of_uint63 (Uint63.of_Z (Z.of_nat n)).

End Py.

Import Py.

Declare Scope py_scope.
Delimit Scope py_scope with py.
Notation "x <- e ;; k" := (Py.bind e (fun x => k))
  (at level 61, e at next level, right associativity) : py_scope.
Local Open Scope py_scope.

(* ================================================================= *)
(** ** Arithmetic the pivot formulas are written in *)

(** The pivot formulas use [+], [-], [*], [/] and integer literals only;
    they are stated once over this interface, run on floats, and read
    over the rationals when an identity is meant in exact arithmetic. *)
Class Num (A : Type) : Type := {
  nadd : A -> A -> A;
  nsub : A -> A -> A;
  nmul : A -> A -> A;
  ndiv : A -> A -> A;
  nlit : nat -> A
}.

#[export] Instance Num_float : Num float := {
  nadd := PrimFloat.add;
  nsub := PrimFloat.sub;
  nmul := PrimFloat.mul;
  ndiv := PrimFloat.div;
  nlit := Py.float_of_nat
}.

#[export] Instance Num_Q : Num Q := {
  nadd := Qplus;
  nsub := Qminus;
  nmul := Qmult;
  ndiv := Qdiv;
  nlit := fun n => inject_Z (Z.of_nat n)
}.

(* ================================================================= *)
(** ** The dataclasses *)

Record TechnicalIndicators : Type := {
  sma_20 : option float;
  sma_50 : option float;
  sma_200 : option float;
  ema_12 : option float;
  ema_26 : option float;
  rsi_14 : option float;
  macd : option float;
  macd_signal : option float;
  macd_histogram : option float;
  stoch_k : option float;
  stoch_d : option float;
  bb_upper : option float;
  bb_middle : option float;
  bb_lower : option float;
  atr_14 : option float;
  obv : option float;
  vwap : option float
}.

(** [dataclasses.asdict(indicators)]. *)
Definition asdict (i : TechnicalIndicators) : dict (option float) :=
  [ ("sma_20", sma_20 i); ("sma_50", sma_50 i); ("sma_200", sma_200 i);
    ("ema_12", ema_12 i); ("ema_26", ema_26 i);
    ("rsi_14", rsi_14 i); ("macd", macd i); ("macd_signal", macd_signal i);
    ("macd_histogram", macd_histogram i);
    ("stoch_k", stoch_k i); ("stoch_d", stoch_d i);
    ("bb_upper", bb_upper i); ("bb_middle", bb_middle i);
    ("bb_lower", bb_lower i); ("atr_14", atr_14 i);
    ("obv", obv i); ("vwap", vwap i) ].

Record PatternRecognition : Type := {
  patterns_found : list string;
  bullish_patterns : list string;
  bearish_patterns : list string;
  strength : string
}.

Record TrendAnalysis : Type := {
  trend_direction : string;
  trend_strength : float;
  support_levels : list float;
  resistance_levels : list float;
  pivot_points : dict float
}.

Record TechnicalAnalysisResult : Type := {
  symbol : string;
  timestamp : Z;
  current_price : float;
  indicators : TechnicalIndicators;
  patterns : PatternRecognition;
  trend : TrendAnalysis;
  signals : dict string;
  confidence : float
}.

(* ================================================================= *)
(** ** Libraries the analyzer calls *)

(** The thirteen TA-Lib candlestick functions the pattern catalog names. *)
Inductive Detector : Type :=
| CDLHAMMER | CDLINVERTEDHAMMER | CDLMORNINGSTAR | CDLENGULFING | CDLPIERCING
| CDL3WHITESOLDIERS | CDLDOJI | CDLDRAGONFLYDOJI | CDLHANGINGMAN
| CDLSHOOTINGSTAR | CDLEVENINGSTAR | CDLDARKCLOUDCOVER | CDL3BLACKCROWS.

(** TA-Lib, as the analyzer sees it: pure functions from input arrays to
    output arrays, which may raise.  Periods are passed as in the calls. *)
Record TALib : Type := {
  SMA : list float -> nat -> result (list float);
  EMA : list float -> nat -> result (list float);
  RSI : list float -> nat -> result (list float);
  MACD : list float -> nat -> nat -> nat ->
         result (list float * list float * list float);
  STOCH : list float -> list float -> list float -> nat -> nat -> nat ->
          result (list float * list float);
  BBANDS : list float -> nat -> nat -> nat ->
           result (list float * list float * list float);
  ATR : list float -> list float -> list float -> nat -> result (list float);
  OBV : list float -> list float -> result (list float);
  CDL : Detector ->
        list float -> list float -> list float -> list float -> result (list Z)
}.

(** One raw candle: a JSON object whose keys may be missing. *)
Record Candle : Type := {
  c_timestamp : option Z;
  c_open : option float;
  c_high : option float;
  c_low : option float;
  c_close : option float;
  c_volume : option float;
  c_symbol : option string
}.

(** One row of the data frame: a missing number is NaN, a missing time is
    NaT ([None]). *)
Record Row : Type := {
  r_timestamp : option Z;
  r_open : float;
  r_high : float;
  r_low : float;
  r_close : float;
  r_volume : float
}.

(** The pandas calls whose behaviour is decided outside the repository:
    [pd.to_datetime(column, unit='ms')], [df.sort_values('timestamp')]
    and [int(t.timestamp() * 1000)] on one time. *)
Record Pandas : Type := {
  to_datetime : list (option Z) -> result (list (option Z));
  sort_values : list Row -> list Row;
  epoch_ms : option Z -> result Z
}.

(* ================================================================= *)
(** ** NumPy and pandas pieces used directly by the source *)

Definition np_isnan (x : float) : bool := PrimFloat.is_nan x.

(** Element-wise binary operation on one-dimensional arrays, with NumPy's
    broadcasting of a length-one operand; other length mismatches raise. *)
Definition np_elementwise (f : float -> float -> float) (a b : list float)
  : result (list float) :=
  if Nat.eqb (List.length a) (List.length b) then Ok (map (fun p => f (fst p) (snd p)) (combine a b))
  else match a, b with
       | [x], _ => Ok (map (f x) b)
       | _, [y] => Ok (map (fun x => f x y) a)
       | _, _ => Raise "ValueError"
       end.

Fixpoint cumsum_from (acc : float) (xs : list float) : list float :=
  match xs with
  | [] => []
  | x :: rest => let acc' := PrimFloat.add acc x in acc' :: cumsum_from acc' rest
  end.

(** [a.cumsum()]: the first entry is [a[0]] itself. *)
Definition np_cumsum (xs : list float) : list float :=
  match xs with
  | [] => []
  | x :: rest => x :: cumsum_from x rest
  end.

(** [a.iloc]: a NumPy array has no such attribute. *)
Definition ndarray_iloc_last (xs : list float) : result float :=
  Raise "AttributeError".

Definition is_some {A} (o : option A) : bool :=
  match o with Some _ => true | None => false end.

Definition candle_has (key : string) (c : Candle) : bool :=
  if String.eqb key "timestamp" then is_some (c_timestamp c)
  else if String.eqb key "open" then is_some (c_open c)
  else if String.eqb key "high" then is_some (c_high c)
  else if String.eqb key "low" then is_some (c_low c)
  else if String.eqb key "close" then is_some (c_close c)
  else if String.eqb key "volume" then is_some (c_volume c)
  else if String.eqb key "symbol" then is_some (c_symbol c)
  else false.

Definition or_nan (o : option float) : float :=
  match o with Some x => x | None => PrimFloat.nan end.

Definition row_of (c : Candle) : Row :=
  {| r_timestamp := c_timestamp c;
     r_open := or_nan (c_open c); r_high := or_nan (c_high c);
     r_low := or_nan (c_low c); r_close := or_nan (c_close c);
     r_volume := or_nan (c_volume c) |}.

Record DataFrame : Type := {
  df_columns : list string;
  df_rows : list Row
}.

(** [pd.DataFrame(records)]: a column for every key some record carries,
    one row per record, holes filled with NaN. *)
Definition pd_DataFrame (records : list Candle) : DataFrame :=
  {| df_columns :=
       filter (fun key => existsb (candle_has key) records)
              ["timestamp"; "open"; "high"; "low"; "close"; "volume"; "symbol"];
     df_rows := map row_of records |}.

(** [df[key]]: [KeyError] when the frame has no such column. *)
Definition df_column {A} (df : DataFrame) (key : string) (field : Row -> A)
  : result (list A) :=
  if existsb (String.eqb key) (df_columns df)
  then Ok (map field (df_rows df))
  else Raise "KeyError".

Definition with_timestamp (r : Row) (t : option Z) : Row :=
  {| r_timestamp := t; r_open := r_open r; r_high := r_high r;
     r_low := r_low r; r_close := r_close r; r_volume := r_volume r |}.

(** [df['timestamp'] = column]. *)
Definition df_set_timestamp (df : DataFrame) (column : list (option Z)) : DataFrame :=
  {| df_columns := df_columns df;
     df_rows := map (fun p => with_timestamp (fst p) (snd p))
                    (combine (df_rows df) column) |}.

(* ================================================================= *)
(** ** class TechnicalAnalyzer *)

(** [self.min_periods]. *)
Definition min_periods : nat := 200.

(** The keys of the indicator snapshot, in field order. *)
Inductive IndicatorKey : Type :=
| K_sma_20 | K_sma_50 | K_sma_200 | K_ema_12 | K_ema_26
| K_rsi_14 | K_macd | K_macd_signal | K_macd_histogram | K_stoch_k | K_stoch_d
| K_bb_upper | K_bb_middle | K_bb_lower | K_atr_14
| K_obv | K_vwap.

Definition all_keys : list IndicatorKey :=
  [ K_sma_20; K_sma_50; K_sma_200; K_ema_12; K_ema_26;
    K_rsi_14; K_macd; K_macd_signal; K_macd_histogram; K_stoch_k; K_stoch_d;
    K_bb_upper; K_bb_middle; K_bb_lower; K_atr_14; K_obv; K_vwap ].

(** The arrays [_calculate_indicators] holds before it reads their last
    entries: the local variables of lines 141-160. *)
Record IndicatorArrays : Type := {
  a_sma_20 : list float;
  a_sma_50 : list float;
  a_sma_200 : list float;
  a_ema_12 : list float;
  a_ema_26 : list float;
  a_rsi_14 : list float;
  a_macd : list float;
  a_macd_signal : list float;
  a_macd_hist : list float;
  a_stoch_k : list float;
  a_stoch_d : list float;
  a_bb_upper : list float;
  a_bb_middle : list float;
  a_bb_lower : list float;
  a_atr_14 : list float;
  a_obv : list float;
  a_vwap : list float
}.

Definition array_of (k : IndicatorKey) (a : IndicatorArrays) : list float :=
  match k with
  | K_sma_20 => a_sma_20 a | K_sma_50 => a_sma_50 a | K_sma_200 => a_sma_200 a
  | K_ema_12 => a_ema_12 a | K_ema_26 => a_ema_26 a
  | K_rsi_14 => a_rsi_14 a
  | K_macd => a_macd a | K_macd_signal => a_macd_signal a
  | K_macd_histogram => a_macd_hist a
  | K_stoch_k => a_stoch_k a | K_stoch_d => a_stoch_d a
  | K_bb_upper => a_bb_upper a | K_bb_middle => a_bb_middle a
  | K_bb_lower => a_bb_lower a
  | K_atr_14 => a_atr_14 a
  | K_obv => a_obv a | K_vwap => a_vwap a
  end.

(** [float(x) if not np.isnan(x) else None]. *)
Definition float_or_none (x : float) : option float :=
  if negb (np_isnan x) then Some x else None.

(** One keyword argument of the [TechnicalIndicators(...)] call: the
    condition reads the last entry first, so an empty array raises.  The
    [vwap] argument goes through [.iloc] on the NumPy array. *)
Definition snapshot_value (k : IndicatorKey) (a : IndicatorArrays)
  : result (option float) :=
  match k with
  | K_vwap => x <- ndarray_iloc_last (a_vwap a) ;; Ok (float_or_none x)
  | _ => x <- last_item (array_of k a) ;; Ok (float_or_none x)
  end.

(** The 14 catalog entries of [patterns_to_check], in insertion order. *)
Definition patterns_to_check : list (string * Detector) :=
  [ ("HAMMER", CDLHAMMER);
    ("INVERTED_HAMMER", CDLINVERTEDHAMMER);
    ("MORNING_STAR", CDLMORNINGSTAR);
    ("BULLISH_ENGULFING", CDLENGULFING);
    ("PIERCING", CDLPIERCING);
    ("THREE_WHITE_SOLDIERS", CDL3WHITESOLDIERS);
    ("DOJI", CDLDOJI);
    ("DRAGONFLY_DOJI", CDLDRAGONFLYDOJI);
    ("HANGING_MAN", CDLHANGINGMAN);
    ("SHOOTING_STAR", CDLSHOOTINGSTAR);
    ("EVENING_STAR", CDLEVENINGSTAR);
    ("BEARISH_ENGULFING", CDLENGULFING);
    ("DARK_CLOUD_COVER", CDLDARKCLOUDCOVER);
    ("THREE_BLACK_CROWS", CDL3BLACKCROWS) ].

(** The three lists the catalog loop appends to. *)
Record PatternLists : Type := {
  l_found : list string;
  l_bullish : list string;
  l_bearish : list string
}.

(** The body of the loop once [result[-1]] is read: a non-zero reading
    is listed as found, and as bullish or bearish by its sign. *)
Definition record_match (acc : PatternLists) (pattern_name : string) (r : Z)
  : PatternLists :=
  if negb (Z.eqb r 0) then
    if Z.ltb 0 r then
      {| l_found := l_found acc ++ [pattern_name];
         l_bullish := l_bullish acc ++ [pattern_name];
         l_bearish := l_bearish acc |}
    else
      {| l_found := l_found acc ++ [pattern_name];
         l_bullish := l_bullish acc;
         l_bearish := l_bearish acc ++ [pattern_name] |}
  else acc.

(** The pivot table of lines 259-268, over any arithmetic. *)
Definition pivot_table {A} `{Num A} (high low close : A) : dict A :=
  let typical_price := ndiv (nadd (nadd high low) close) (nlit 3) in
  let pivot := typical_price in
  let pivot_points := [] in
  let pivot_points := dict_set "pivot" pivot pivot_points in
  let pivot_points := dict_set "r1" (nsub (nmul (nlit 2) pivot) low) pivot_points in
  let pivot_points := dict_set "r2" (nadd pivot (nsub high low)) pivot_points in
  let pivot_points := dict_set "r3" (nadd high (nmul (nlit 2) (nsub pivot low))) pivot_points in
  let pivot_points := dict_set "s1" (nsub (nmul (nlit 2) pivot) high) pivot_points in
  let pivot_points := dict_set "s2" (nsub pivot (nsub high low)) pivot_points in
  let pivot_points := dict_set "s3" (nsub low (nmul (nlit 2) (nsub high pivot))) pivot_points in
  pivot_points.

Section Analyzer.

Variable talib : TALib.

Definition _calculate_indicators (close high low open_prices volume : list float)
  : result TechnicalIndicators :=
  (* Trend Indicators *)
  sma_20 <- SMA talib close 20 ;;
  sma_50 <- SMA talib close 50 ;;
  sma_200 <- SMA talib close 200 ;;
  ema_12 <- EMA talib close 12 ;;
  ema_26 <- EMA talib close 26 ;;
  (* Momentum Indicators *)
  rsi_14 <- RSI talib close 14 ;;
  m <- MACD talib close 12 26 9 ;;
  let '(macd, macd_signal, macd_hist) := m in
  s <- STOCH talib high low close 14 3 3 ;;
  let '(stoch_k, stoch_d) := s in
  (* Volatility Indicators *)
  b <- BBANDS talib close 20 2 2 ;;
  let '(bb_upper, bb_middle, bb_lower) := b in
  atr_14 <- ATR talib high low close 14 ;;
  (* Volume Indicators *)
  obv <- OBV talib close volume ;;
  (* VWAP *)
  cv <- np_elementwise PrimFloat.mul close volume ;;
  vwap <- np_elementwise PrimFloat.div (np_cumsum cv) (np_cumsum volume) ;;
  let a := {| a_sma_20 := sma_20; a_sma_50 := sma_50; a_sma_200 := sma_200;
              a_ema_12 := ema_12; a_ema_26 := ema_26; a_rsi_14 := rsi_14;
              a_macd := macd; a_macd_signal := macd_signal;
              a_macd_hist := macd_hist;
              a_stoch_k := stoch_k; a_stoch_d := stoch_d;
              a_bb_upper := bb_upper; a_bb_middle := bb_middle;
              a_bb_lower := bb_lower; a_atr_14 := atr_14;
              a_obv := obv; a_vwap := vwap |} in
  v_sma_20 <- snapshot_value K_sma_20 a ;;
  v_sma_50 <- snapshot_value K_sma_50 a ;;
  v_sma_200 <- snapshot_value K_sma_200 a ;;
  v_ema_12 <- snapshot_value K_ema_12 a ;;
  v_ema_26 <- snapshot_value K_ema_26 a ;;
  v_rsi_14 <- snapshot_value K_rsi_14 a ;;
  v_macd <- snapshot_value K_macd a ;;
  v_macd_signal <- snapshot_value K_macd_signal a ;;
  v_macd_histogram <- snapshot_value K_macd_histogram a ;;
  v_stoch_k <- snapshot_value K_stoch_k a ;;
  v_stoch_d <- snapshot_value K_stoch_d a ;;
  v_bb_upper <- snapshot_value K_bb_upper a ;;
  v_bb_middle <- snapshot_value K_bb_middle a ;;
  v_bb_lower <- snapshot_value K_bb_lower a ;;
  v_atr_14 <- snapshot_value K_atr_14 a ;;
  v_obv <- snapshot_value K_obv a ;;
  v_vwap <- snapshot_value K_vwap a ;;
  Ok {| sma_20 := v_sma_20; sma_50 := v_sma_50; sma_200 := v_sma_200;
        ema_12 := v_ema_12; ema_26 := v_ema_26; rsi_14 := v_rsi_14;
        macd := v_macd; macd_signal := v_macd_signal;
        macd_histogram := v_macd_histogram;
        stoch_k := v_stoch_k; stoch_d := v_stoch_d;
        bb_upper := v_bb_upper; bb_middle := v_bb_middle;
        bb_lower := v_bb_lower; atr_14 := v_atr_14;
        obv := v_obv; vwap := v_vwap |}.

(** The loop [for pattern_name, pattern_func in ...items()]. *)
Fixpoint check_patterns (todo : list (string * Detector))
         (open_prices high low close : list float) (acc : PatternLists)
  : result PatternLists :=
  match todo with
  | [] => Ok acc
  | (pattern_name, pattern_func) :: rest =>
      res <- CDL talib pattern_func open_prices high low close ;;
      r <- last_item res ;;
      check_patterns rest open_prices high low close
                     (record_match acc pattern_name r)
  end.

Definition _recognize_patterns (open_prices high low close : list float)
  : result PatternRecognition :=
  let start := {| l_found := []; l_bullish := []; l_bearish := [] |} in
  lists <- check_patterns patterns_to_check open_prices high low close start ;;
  (* Determine pattern strength *)
  let strength := "weak" in
  let strength :=
    if Nat.leb 3 (List.length (l_found lists)) then "strong"
    else if Nat.leb 2 (List.length (l_found lists)) then "moderate"
    else strength in
  Ok {| patterns_found := l_found lists;
        bullish_patterns := l_bullish lists;
        bearish_patterns := l_bearish lists;
        strength := strength |}.

End Analyzer.

(** [a and b] on two [Optional[float]] attributes used as a condition:
    the two floats when both are truthy. *)
Definition both_truthy (a b : option float) : option (float * float) :=
  match a, b with
  | Some x, Some y => if truthy_float x && truthy_float y then Some (x, y) else None
  | _, _ => None
  end.

(** [a > b] on floats. *)
Definition gtb (a b : float) : bool := PrimFloat.ltb b a.
(** [a >= b] on floats. *)
Definition geb (a b : float) : bool := PrimFloat.leb b a.

Definition _analyze_trend (close high low : list float)
           (indicators : TechnicalIndicators) : result TrendAnalysis :=
  (* Determine trend direction *)
  let trend_direction := "neutral" in
  let trend_strength := 50%float in
  ds <-
    match both_truthy (sma_50 indicators) (sma_200 indicators) with
    | Some (sma50, sma200) =>
        c <- last_item close ;;
        if gtb c sma50 && gtb sma50 sma200 then Ok ("bullish", 75%float)
        else if PrimFloat.ltb c sma50 && PrimFloat.ltb sma50 sma200
             then Ok ("bearish", 75%float)
             else Ok (trend_direction, trend_strength)
    | None =>
        match both_truthy (ema_12 indicators) (ema_26 indicators) with
        | Some (ema12, ema26) =>
            if gtb ema12 ema26 then Ok ("bullish", 60%float)
            else if PrimFloat.ltb ema12 ema26 then Ok ("bearish", 60%float)
            else Ok (trend_direction, trend_strength)
        | None => Ok (trend_direction, trend_strength)
        end
    end ;;
  let '(trend_direction, trend_strength) := ds in
  (* Identify support and resistance levels using pivot points *)
  if Nat.ltb 0 (List.length close) then
    h <- last_item high ;;
    l <- last_item low ;;
    c <- last_item close ;;
    let pivot_points := pivot_table h l c in
    r1 <- dict_item "r1" pivot_points ;;
    r2 <- dict_item "r2" pivot_points ;;
    r3 <- dict_item "r3" pivot_points ;;
    s1 <- dict_item "s1" pivot_points ;;
    s2 <- dict_item "s2" pivot_points ;;
    s3 <- dict_item "s3" pivot_points ;;
    Ok {| trend_direction := trend_direction;
          trend_strength := trend_strength;
          support_levels := [s1; s2; s3];
          resistance_levels := [r1; r2; r3];
          pivot_points := pivot_points |}
  else
    Ok {| trend_direction := trend_direction;
          trend_strength := trend_strength;
          support_levels := [];
          resistance_levels := [];
          pivot_points := [] |}.

(** [indicators.vwap or 0]. *)
Definition vwap_or_zero (o : option float) : float :=
  match o with
  | Some x => if truthy_float x then x else 0%float
  | None => 0%float
  end.

(** The five voting blocks of [_generate_signals], lines 286-328: each
    takes the mapping built so far and returns it with its vote added. *)

(* RSI Signal *)
Definition vote_rsi (indicators : TechnicalIndicators) (signals : dict string)
  : dict string :=
  match rsi_14 indicators with
  | Some rsi =>
      if truthy_float rsi then
        if PrimFloat.ltb rsi 30%float then dict_set "rsi" "buy" signals
        else if gtb rsi 70%float then dict_set "rsi" "sell" signals
        else dict_set "rsi" "hold" signals
      else signals
  | None => signals
  end.

(* MACD Signal *)
Definition vote_macd (indicators : TechnicalIndicators) (signals : dict string)
  : dict string :=
  match both_truthy (macd indicators) (macd_signal indicators) with
  | Some (m, s) =>
      if gtb m s then dict_set "macd" "buy" signals
      else if PrimFloat.ltb m s then dict_set "macd" "sell" signals
      else dict_set "macd" "hold" signals
  | None => signals
  end.

(* Bollinger Bands Signal *)
Definition vote_bollinger (indicators : TechnicalIndicators) (signals : dict string)
  : dict string :=
  match both_truthy (bb_upper indicators) (bb_lower indicators) with
  | Some (upper, lower) =>
      let current_price := vwap_or_zero (vwap indicators) in
      if PrimFloat.leb current_price lower then dict_set "bollinger" "buy" signals
      else if geb current_price upper then dict_set "bollinger" "sell" signals
      else dict_set "bollinger" "hold" signals
  | None => signals
  end.

(* Pattern Signal *)
Definition vote_pattern (patterns : PatternRecognition) (signals : dict string)
  : dict string :=
  if Nat.ltb (List.length (bearish_patterns patterns))
             (List.length (bullish_patterns patterns))
  then dict_set "pattern" "buy" signals
  else if Nat.ltb (List.length (bullish_patterns patterns))
                  (List.length (bearish_patterns patterns))
  then dict_set "pattern" "sell" signals
  else dict_set "pattern" "hold" signals.

(* Trend Signal *)
Definition vote_trend (trend : TrendAnalysis) (signals : dict string)
  : dict string :=
  if String.eqb (trend_direction trend) "bullish" then dict_set "trend" "buy" signals
  else if String.eqb (trend_direction trend) "bearish" then dict_set "trend" "sell" signals
  else dict_set "trend" "hold" signals.

(** The mapping before the overall vote is added. *)
Definition component_signals (indicators : TechnicalIndicators)
           (patterns : PatternRecognition) (trend : TrendAnalysis) : dict string :=
  let signals := [] in
  let signals := vote_rsi indicators signals in
  let signals := vote_macd indicators signals in
  let signals := vote_bollinger indicators signals in
  let signals := vote_pattern patterns signals in
  let signals := vote_trend trend signals in
  signals.

(** The majority vote of lines 331-339, added under the key [overall]. *)
Definition overall_vote (signals : dict string) : dict string :=
  let buy_count := count_eq "buy" (dict_values signals) in
  let sell_count := count_eq "sell" (dict_values signals) in
  if Nat.ltb sell_count buy_count then dict_set "overall" "buy" signals
  else if Nat.ltb buy_count sell_count then dict_set "overall" "sell" signals
  else dict_set "overall" "hold" signals.

Definition _generate_signals (indicators : TechnicalIndicators)
           (patterns : PatternRecognition) (trend : TrendAnalysis) : dict string :=
  overall_vote (component_signals indicators patterns trend).

(** [sum(1 for v in asdict(indicators).values() if v is not None)]. *)
Definition indicator_count (indicators : TechnicalIndicators) : nat :=
  List.length (filter is_some (dict_values (asdict indicators))).

Definition _calculate_confidence (indicators : TechnicalIndicators)
           (patterns : PatternRecognition) (trend : TrendAnalysis)
           (data_points : nat) : float :=
  let confidence := 0%float in
  (* Data quality (max 30 points) *)
  let confidence :=
    if Nat.leb min_periods data_points then (confidence + 30)%float
    else (confidence
          + (float_of_nat data_points / float_of_nat min_periods) * 30)%float in
  (* Indicator agreement (max 30 points) *)
  let confidence :=
    (confidence + (float_of_nat (indicator_count indicators) / 12) * 30)%float in
  (* Pattern strength (max 20 points) *)
  let confidence :=
    if String.eqb (strength patterns) "strong" then (confidence + 20)%float
    else if String.eqb (strength patterns) "moderate" then (confidence + 12)%float
    else if String.eqb (strength patterns) "weak" then (confidence + 5)%float
    else confidence in
  (* Trend strength (max 20 points) *)
  let confidence := (confidence + (trend_strength trend / 100) * 20)%float in
  py_min confidence 100%float.

Section Pipeline.

Variable talib : TALib.
Variable pandas : Pandas.

Definition analyze (ohlcv_data : list Candle) : result TechnicalAnalysisResult :=
  (* Convert to pandas DataFrame *)
  let df := pd_DataFrame ohlcv_data in
  raw <- df_column df "timestamp" r_timestamp ;;
  times <- to_datetime pandas raw ;;
  let df := df_set_timestamp df times in
  let df := {| df_columns := df_columns df;
               df_rows := sort_values pandas (df_rows df) |} in
  (* Extract numpy arrays for TA-Lib *)
  close <- df_column df "close" r_close ;;
  high <- df_column df "high" r_high ;;
  low <- df_column df "low" r_low ;;
  open_prices <- df_column df "open" r_open ;;
  volume <- df_column df "volume" r_volume ;;
  indicators <- _calculate_indicators talib close high low open_prices volume ;;
  patterns <- _recognize_patterns talib open_prices high low close ;;
  trend <- _analyze_trend close high low indicators ;;
  let signals := _generate_signals indicators patterns trend in
  let confidence :=
    _calculate_confidence indicators patterns trend (List.length (df_rows df)) in
  first <- first_item ohlcv_data ;;
  let symbol := match c_symbol first with Some s => s | None => "UNKNOWN" end in
  stamps <- df_column df "timestamp" r_timestamp ;;
  latest <- last_item stamps ;;
  timestamp <- epoch_ms pandas latest ;;
  current_price <- last_item close ;;
  Ok {| symbol := symbol;
        timestamp := timestamp;
        current_price := current_price;
        indicators := indicators;
        patterns := patterns;
        trend := trend;
        signals := signals;
        confidence := confidence |}.

(** What [main] prints, with the exit status that goes with it. *)
Inductive Output : Type :=
| Usage                                       (* no argument: exit 1 *)
| Report (r : TechnicalAnalysisResult)        (* the result: exit 0 *)
| Failure (type_name : string).               (* {error, type}: exit 1 *)

Definition exit_status (o : Output) : Z :=
  match o with
  | Report _ => 0
  | Usage | Failure _ => 1
  end.

(** [json.loads], which decides what a command-line argument denotes. *)
Variable json_loads : string -> result (list Candle).

(** [main], given [sys.argv]. *)
Definition main (argv : list string) : Output :=
  match argv with
  | _ :: arg :: _ =>
      match (ohlcv_data <- json_loads arg ;; analyze ohlcv_data) with
      | Ok r => Report r
      | Raise e => Failure e
      end
  | _ => Usage
  end.

End Pipeline.

(* ================================================================= *)
(** ** TA-Lib's lookbacks *)

(** The number of leading entries TA-Lib leaves undefined (NaN) in the
    output an indicator key is read from, for the periods the analyzer
    passes: SMA and EMA [period - 1]; RSI and ATR [period]; MACD
    [(26 - 1) + (9 - 1)]; STOCH [(14 - 1) + (3 - 1) + (3 - 1)]; BBANDS
    [20 - 1]; OBV and the VWAP quotient none. *)
Definition lookback (k : IndicatorKey) : nat :=
  match k with
  | K_sma_20 => 19 | K_sma_50 => 49 | K_sma_200 => 199
  | K_ema_12 => 11 | K_ema_26 => 25
  | K_rsi_14 => 14
  | K_macd | K_macd_signal | K_macd_histogram => 33
  | K_stoch_k | K_stoch_d => 17
  | K_bb_upper | K_bb_middle | K_bb_lower => 19
  | K_atr_14 => 14
  | K_obv | K_vwap => 0
  end.

(** The shortest batch for which the key can be defined. *)
Definition window (k : IndicatorKey) : nat := S (lookback k).

(** The keys with a window of more than one candle. *)
Definition windowed (k : IndicatorKey) : bool := Nat.ltb 1 (window k).

(** An output array respects the key's lookback: its first [lookback k]
    entries, as far as it reaches, are NaN. *)
Definition warms_up (k : IndicatorKey) (xs : list float) : bool :=
  forallb np_isnan (firstn (lookback k) xs).

Definition is_finite (x : float) : bool :=
  negb (PrimFloat.is_nan x) && negb (PrimFloat.is_infinity x).

(* ================================================================= *)
(** ** Reference models of three TA-Lib routines *)

Module TALibRef.

(** The moving-total loop of TA-Lib's SMA: [lead] runs [period - 1]
    entries ahead of [trail]. *)
Fixpoint sma_loop (period total : float) (lead trail : list float) : list float :=
  match lead, trail with
  | x :: lead', t :: trail' =>
      let temp := (total + x)%float in
      (temp / period)%float :: sma_loop period (temp - t)%float lead' trail'
  | _, _ => []
  end.

(** [talib.SMA(real, timeperiod)] on an array without NaN. *)
Definition sma (real : list float) (timeperiod : nat) : list float :=
  if Nat.ltb (List.length real) timeperiod then repeat PrimFloat.nan (List.length real)
  else
    let head := firstn (timeperiod - 1) real in
    repeat PrimFloat.nan (timeperiod - 1)
    ++ sma_loop (float_of_nat timeperiod)
                (fold_left PrimFloat.add head 0%float)
                (skipn (timeperiod - 1) real) real.

(** TA-Lib's zero test, [-1e-8 < x < 1e-8] (the literals in binary64). *)
Definition is_zero (x : float) : bool :=
  PrimFloat.ltb (-0x1.5798ee2308c3ap-27)%float x
  && PrimFloat.ltb x 0x1.5798ee2308c3ap-27%float.

Definition rsi_value (gain loss : float) : float :=
  let total := (gain + loss)%float in
  if negb (is_zero total) then (100 * (gain / total))%float else 0%float.

(** Sum of the first [period] gains and losses. *)
Fixpoint rsi_seed (prev gain loss : float) (xs : list float) : float * float * float :=
  match xs with
  | [] => (prev, gain, loss)
  | x :: rest =>
      let d := (x - prev)%float in
      if PrimFloat.ltb d 0%float then rsi_seed x gain (loss - d)%float rest
      else rsi_seed x (gain + d)%float loss rest
  end.

(** Wilder's smoothing over the entries after the seed. *)
Fixpoint rsi_loop (period prev gain loss : float) (xs : list float) : list float :=
  match xs with
  | [] => []
  | x :: rest =>
      let d := (x - prev)%float in
      let loss := (loss * (period - 1))%float in
      let gain := (gain * (period - 1))%float in
      let loss := if PrimFloat.ltb d 0%float then (loss - d)%float else loss in
      let gain := if PrimFloat.ltb d 0%float then gain else (gain + d)%float in
      let loss := (loss / period)%float in
      let gain := (gain / period)%float in
      rsi_value gain loss :: rsi_loop period x gain loss rest
  end.

(** [talib.RSI(real, timeperiod)] on an array without NaN. *)
Definition rsi (real : list float) (timeperiod : nat) : list float :=
  match real with
  | [] => []
  | first :: rest =>
      if Nat.leb (List.length real) timeperiod then repeat PrimFloat.nan (List.length real)
      else
        let period := float_of_nat timeperiod in
        let '(prev, gain, loss) := rsi_seed first 0%float 0%float (firstn timeperiod rest) in
        let gain := (gain / period)%float in
        let loss := (loss / period)%float in
        repeat PrimFloat.nan timeperiod
        ++ rsi_value gain loss :: rsi_loop period prev gain loss (skipn timeperiod rest)
  end.

(** [talib.OBV(close, volume)]. *)
Fixpoint obv_loop (prev_obv prev_close : float) (close volume : list float) : list float :=
  match close, volume with
  | c :: close', v :: volume' =>
      let o := if PrimFloat.ltb prev_close c then (prev_obv + v)%float
               else if PrimFloat.ltb c prev_close then (prev_obv - v)%float
               else prev_obv in
      o :: obv_loop o c close' volume'
  | _, _ => []
  end.

Definition obv (close volume : list float) : list float :=
  match close, volume with
  | c :: close', v :: volume' => v :: obv_loop v c close' volume'
  | _, _ => []
  end.

End TALibRef.

(* ================================================================= *)
(** ** Sample inputs and library doubles *)

Module Sample.

Definition nans (n : nat) : list float := repeat PrimFloat.nan n.

(** A TA-Lib double for short batches: every windowed output is still
    inside its lookback (all NaN), OBV is the running signed volume, and
    each candlestick function reports [marks d] on the latest candle. *)
Definition talib_double (marks : Detector -> Z) : TALib :=
  {| SMA := fun real _ => Ok (nans (List.length real));
     EMA := fun real _ => Ok (nans (List.length real));
     RSI := fun real _ => Ok (nans (List.length real));
     MACD := fun real _ _ _ =>
       Ok (nans (List.length real), nans (List.length real), nans (List.length real));
     STOCH := fun high _ _ _ _ _ =>
       Ok (nans (List.length high), nans (List.length high));
     BBANDS := fun real _ _ _ =>
       Ok (nans (List.length real), nans (List.length real), nans (List.length real));
     ATR := fun high _ _ _ => Ok (nans (List.length high));
     OBV := fun close volume => Ok (TALibRef.obv close volume);
     CDL := fun d open_prices _ _ _ =>
       match open_prices with
       | [] => Ok []
       | _ :: rest => Ok (repeat 0%Z (List.length rest) ++ [marks d])
       end |}.

Definition quiet : Detector -> Z := fun _ => 0%Z.

(** Engulfing and hammer bullish, shooting star bearish. *)
Definition busy (d : Detector) : Z :=
  match d with
  | CDLENGULFING | CDLHAMMER => 100%Z
  | CDLSHOOTINGSTAR => (-100)%Z
  | _ => 0%Z
  end.

(** Insertion by time, NaT last; a row goes in front of the rows of the
    same time already placed, so inserting from the right keeps ties in
    their original order. *)
Definition not_after (a b : Row) : bool :=
  match r_timestamp a, r_timestamp b with
  | Some x, Some y => Z.leb x y
  | _, None => true
  | None, Some _ => false
  end.

Fixpoint insert_row (r : Row) (sorted : list Row) : list Row :=
  match sorted with
  | [] => [r]
  | s :: rest => if not_after r s then r :: s :: rest else s :: insert_row r rest
  end.

Definition pandas_double : Pandas :=
  {| to_datetime := fun column => Ok column;
     sort_values := fun rows => fold_right insert_row [] rows;
     epoch_ms := fun t => match t with Some ms => Ok ms | None => Raise "ValueError" end |}.

(** A parser double: the argument ["[]"] is the empty batch. *)
Definition json_double (arg : string) : result (list Candle) :=
  if String.eqb arg "[]" then Ok [] else Raise "JSONDecodeError".

Definition no_indicators : TechnicalIndicators :=
  {| sma_20 := None; sma_50 := None; sma_200 := None; ema_12 := None;
     ema_26 := None; rsi_14 := None; macd := None; macd_signal := None;
     macd_histogram := None; stoch_k := None; stoch_d := None;
     bb_upper := None; bb_middle := None; bb_lower := None; atr_14 := None;
     obv := None; vwap := None |}.

Definition no_patterns : PatternRecognition :=
  {| patterns_found := []; bullish_patterns := []; bearish_patterns := [];
     strength := "weak" |}.

Definition neutral_trend : TrendAnalysis :=
  {| trend_direction := "neutral"; trend_strength := 50%float;
     support_levels := []; resistance_levels := []; pivot_points := [] |}.

(** RSI exactly zero: what fifteen strictly falling closes give. *)
Definition oversold : TechnicalIndicators :=
  {| sma_20 := None; sma_50 := None; sma_200 := None;
     ema_12 := None; ema_26 := None;
     rsi_14 := Some 0%float;
     macd := None; macd_signal := None; macd_histogram := None;
     stoch_k := None; stoch_d := None;
     bb_upper := None; bb_middle := None; bb_lower := None; atr_14 := None;
     obv := None; vwap := None |}.

Definition falling_closes : list float :=
  [100; 99; 98; 97; 96; 95; 94; 93; 92; 91; 90; 89; 88; 87; 86]%float.

(** A 50-period average of exactly zero beside defined EMAs. *)
Definition flat_sma50 : TechnicalIndicators :=
  {| sma_20 := Some 0%float; sma_50 := Some 0%float; sma_200 := Some 7.5%float;
     ema_12 := Some 1%float; ema_26 := Some 2%float;
     rsi_14 := None;
     macd := None; macd_signal := None; macd_histogram := None;
     stoch_k := None; stoch_d := None;
     bb_upper := None; bb_middle := None; bb_lower := None; atr_14 := None;
     obv := None; vwap := None |}.

(** 150 closes of 10 followed by 50 closes of 0. *)
Definition collapsed_closes : list float := repeat 10%float 150 ++ repeat 0%float 50.

(** Twenty closes near the top of the float range. *)
Definition huge_closes : list float := repeat 0x1p1023%float 20.

(** The arrays of a 20-candle batch in which only [sma_20] has left its
    lookback. *)
Definition huge_arrays : IndicatorArrays :=
  {| a_sma_20 := TALibRef.sma huge_closes 20;
     a_sma_50 := nans 20; a_sma_200 := nans 20;
     a_ema_12 := nans 20; a_ema_26 := nans 20; a_rsi_14 := nans 20;
     a_macd := nans 20; a_macd_signal := nans 20; a_macd_hist := nans 20;
     a_stoch_k := nans 20; a_stoch_d := nans 20;
     a_bb_upper := nans 20; a_bb_middle := nans 20; a_bb_lower := nans 20;
     a_atr_14 := nans 20; a_obv := nans 20; a_vwap := nans 20 |}.

(** The arrays of a three-candle batch: everything windowed is NaN. *)
Definition short_arrays : IndicatorArrays :=
  {| a_sma_20 := nans 3; a_sma_50 := nans 3; a_sma_200 := TALibRef.sma [1; 2; 3]%float 200;
     a_ema_12 := nans 3; a_ema_26 := nans 3; a_rsi_14 := nans 3;
     a_macd := nans 3; a_macd_signal := nans 3; a_macd_hist := nans 3;
     a_stoch_k := nans 3; a_stoch_d := nans 3;
     a_bb_upper := nans 3; a_bb_middle := nans 3; a_bb_lower := nans 3;
     a_atr_14 := nans 3; a_obv := [5; 10; 15]%float; a_vwap := [1; 2; 3]%float |}.

(** The single candle of the specification's scenario. *)
Definition one_candle : Candle :=
  {| c_timestamp := Some 0%Z; c_open := Some 10%float; c_high := Some 12%float;
     c_low := Some 9%float; c_close := Some 11%float; c_volume := Some 100%float;
     c_symbol := None |}.

(** A record without a time stamp. *)
Definition untimed_candle : Candle :=
  {| c_timestamp := None; c_open := Some 10%float; c_high := Some 12%float;
     c_low := Some 9%float; c_close := Some 11%float; c_volume := Some 100%float;
     c_symbol := Some "S-USD" |}.

(** Bands around 100 with no VWAP at hand. *)
Definition bands_only : TechnicalIndicators :=
  {| sma_20 := Some 100%float; sma_50 := None; sma_200 := None;
     ema_12 := Some 100%float; ema_26 := None;
     rsi_14 := Some 50%float;
     macd := None; macd_signal := None; macd_histogram := None;
     stoch_k := None; stoch_d := None;
     bb_upper := Some 110%float; bb_middle := Some 100%float;
     bb_lower := Some 90%float; atr_14 := None;
     obv := None; vwap := None |}.

(** The trend analysis of the single candle. *)
Definition single_trend : TrendAnalysis :=
  match _analyze_trend [11%float] [12%float] [9%float] no_indicators with
  | Ok tr => tr
  | Raise _ => neutral_trend
  end.

(** The patterns of the single candle under the [busy] detectors. *)
Definition busy_patterns : PatternRecognition :=
  match _recognize_patterns (talib_double busy)
                            [10%float] [12%float] [9%float] [11%float] with
  | Ok pat => pat
  | Raise _ => no_patterns
  end.

End Sample.

(* ================================================================= *)
(** ** Notions the properties are stated with *)

(** The votes of a signals mapping other than the overall vote. *)
Definition component_votes (signals : dict string) : list string :=
  dict_values (filter (fun kv => negb (String.eqb (fst kv) "overall")) signals).

(** What a candlestick function reports on the latest candle:
    [pattern_func(open_prices, high, low, close)[-1]]. *)
Definition latest_reading (talib : TALib) (open_prices high low close : list float)
           (d : Detector) : result Z :=
  res <- CDL talib d open_prices high low close ;; last_item res.

(** The keys the component votes are stored under. *)
Definition component_keys : list string :=
  ["rsi"; "macd"; "bollinger"; "pattern"; "trend"].

(** The entry of a pivot table, read over the rationals. *)
Definition level (key : string) (table : dict Q) : Q :=
  match dict_get key table with
  | Some v => v
  | None => 0%Q
  end.

(** The six numeric fields a candle is expected to carry. *)
Definition required_fields : list string :=
  ["timestamp"; "open"; "high"; "low"; "close"; "volume"].

(** The points the pattern-strength label adds, if any. *)
Definition pattern_points (label : string) : option float :=
  if String.eqb label "strong" then Some 20%float
  else if String.eqb label "moderate" then Some 12%float
  else if String.eqb label "weak" then Some 5%float
  else None.

(** The confidence sum as a function of the four quantities it reads. *)
Definition confidence_formula (data_points count : nat) (points : option float)
           (strength : float) : float :=
  let confidence := 0%float in
  let confidence :=
    if Nat.leb min_periods data_points then (confidence + 30)%float
    else (confidence
          + (float_of_nat data_points / float_of_nat min_periods) * 30)%float in
  let confidence := (confidence + (float_of_nat count / 12) * 30)%float in
  let confidence :=
    match points with
    | Some p => (confidence + p)%float
    | None => confidence
    end in
  let confidence := (confidence + (strength / 100) * 20)%float in
  py_min confidence 100%float.

(** The bounds checked of one confidence value: within [0, 100], and at
    least 15 when the strength label is one of the three known ones. *)
Definition confidence_bounds (points : option float) (c : float) : bool :=
  PrimFloat.leb 0%float c && PrimFloat.leb c 100%float
  && match points with
     | Some _ => PrimFloat.leb 15%float c
     | None => true
     end.

(** The names of a catalog whose detector reading passes a test, in
    catalog order. *)
Definition names_where (test : Z -> bool) (rd : Detector -> Z)
           (catalog : list (string * Detector)) : list string :=
  map fst (filter (fun entry => test (rd (snd entry))) catalog).

(** The latest reading of a detector, zero where there is none. *)
Definition reading_or_zero (talib : TALib) (open_prices high low close : list float)
           (d : Detector) : Z :=
  match latest_reading talib open_prices high low close d with
  | Ok v => v
  | Raise _ => 0%Z
  end.

(** The keys and the votes a signals mapping may hold. *)
Definition signal_keys : list string :=
  ["rsi"; "macd"; "bollinger"; "pattern"; "trend"; "overall"].

Definition signal_votes : list string := ["buy"; "sell"; "hold"].

(** A mapping with distinct keys, all signal keys, and votes for values. *)
Definition signals_well_formed (signals : dict string) : Prop :=
  NoDup (map fst signals)
  /\ Forall (fun kv => In (fst kv) signal_keys /\ In (snd kv) signal_votes) signals.

(** A library call that returns an array of [n] entries. *)
Definition returns_n (r : result (list float)) (n : nat) : Prop :=
  exists xs, r = Ok xs /\ List.length xs = n.

(** The eleven TA-Lib calls of [_calculate_indicators] return, each
    output as long as the close series. *)
Definition talib_returns (talib : TALib) (close high low volume : list float) : Prop :=
  let n := List.length close in
  returns_n (SMA talib close 20) n /\
  returns_n (SMA talib close 50) n /\
  returns_n (SMA talib close 200) n /\
  returns_n (EMA talib close 12) n /\
  returns_n (EMA talib close 26) n /\
  returns_n (RSI talib close 14) n /\
  (exists m s h,
      MACD talib close 12 26 9 = Ok (m, s, h)
      /\ List.length m = n /\ List.length s = n /\ List.length h = n) /\
  (exists k d,
      STOCH talib high low close 14 3 3 = Ok (k, d)
      /\ List.length k = n /\ List.length d = n) /\
  (exists u m l,
      BBANDS talib close 20 2 2 = Ok (u, m, l)
      /\ List.length u = n /\ List.length m = n /\ List.length l = n) /\
  returns_n (ATR talib high low close 14) n /\
  returns_n (OBV talib close volume) n.

(* ================================================================= *)
(** * Properties *)

(** ** Sequences and dictionaries *)

Lemma last_item_app {A} (xs : list A) (x : A) : last_item (xs ++ [x]) = Ok x.
Proof.
  induction xs as [|y ys IH]; simpl; [reflexivity|].
  destruct (ys ++ [x]) eqn:E; [destruct ys; discriminate | exact IH].
Qed.

Lemma last_item_cons {A} (y : A) (ys : list A) :
  ys <> [] -> last_item (y :: ys) = last_item ys.
Proof. destruct ys; [congruence | reflexivity]. Qed.

Lemma last_item_In {A} (xs : list A) (x : A) : last_item xs = Ok x -> In x xs.
Proof.
  induction xs as [|y ys IH]; simpl; [discriminate|].
  destruct ys as [|z zs]; [intros [= ->]; now left | intro H; right; exact (IH H)].
Qed.

Lemma last_item_nonempty {A} (xs : list A) :
  xs <> [] -> exists x, last_item xs = Ok x.
Proof.
  intro H. destruct (exists_last H) as [ys [x ->]].
  exists x. apply last_item_app.
Qed.

Lemma last_item_empty {A} (xs : list A) (e : string) :
  last_item xs = Raise e -> xs = [].
Proof.
  intro H. destruct xs as [|y ys]; [reflexivity|].
  destruct (@last_item_nonempty A (y :: ys)) as [x Hx]; congruence.
Qed.

Lemma dict_get_set_same {V} (k : string) (v : V) (d : dict V) :
  dict_get k (dict_set k v d) = Some v.
Proof.
  induction d as [|[k' v'] rest IH]; simpl.
  - now rewrite String.eqb_refl.
  - destruct (String.eqb k k') eqn:E; simpl; rewrite E; [reflexivity | exact IH].
Qed.

Lemma dict_get_set_other {V} (k k' : string) (v : V) (d : dict V) :
  k <> k' -> dict_get k (dict_set k' v d) = dict_get k d.
Proof.
  intro Hne. induction d as [|[k2 v2] rest IH]; simpl.
  - apply String.eqb_neq in Hne. now rewrite Hne.
  - destruct (String.eqb k' k2) eqn:E; simpl.
    + apply String.eqb_eq in E. subst k2.
      apply String.eqb_neq in Hne. now rewrite Hne.
    + now rewrite IH.
Qed.

(** Keys of a dictionary stay inside [allowed] under assignment of an
    allowed key. *)
Lemma keys_dict_set {V} (allowed : list string) (k : string) (v : V) (d : dict V) :
  In k allowed ->
  Forall (fun kv => In (fst kv) allowed) d ->
  Forall (fun kv => In (fst kv) allowed) (dict_set k v d).
Proof.
  intros Hk. induction 1 as [|[k' v'] rest Hhd Htl IH]; simpl.
  - constructor; [exact Hk | constructor].
  - destruct (String.eqb k k'); constructor; assumption.
Qed.

(** Adding a vote under a fresh key leaves the other entries as they
    were. *)
Lemma filter_set_fresh (v : string) (d : dict string) :
  Forall (fun kv => fst kv <> "overall") d ->
  filter (fun kv => negb (String.eqb (fst kv) "overall")) (dict_set "overall" v d) = d.
Proof.
  induction 1 as [|[k' v'] rest Hhd Htl IH]; [cbn; reflexivity|].
  cbn [fst] in Hhd. cbn [dict_set].
  destruct (String.eqb "overall" k') eqn:E.
  - apply String.eqb_eq in E. congruence.
  - cbn [filter fst]. apply String.eqb_neq in Hhd. rewrite Hhd.
    cbn [negb]. now rewrite IH.
Qed.

(** ** Signals *)

(** Case analysis on the conditions of a voting block. *)
Ltac vote_cases :=
  repeat match goal with
         | |- context [match ?o with _ => _ end] =>
             lazymatch o with
             | rsi_14 _ => destruct o
             | both_truthy _ _ => destruct o as [[? ?]|]
             | truthy_float _ => destruct o
             | PrimFloat.ltb _ _ => destruct o
             | PrimFloat.leb _ _ => destruct o
             | gtb _ _ => destruct o
             | geb _ _ => destruct o
             | Nat.ltb _ _ => destruct o
             | String.eqb (trend_direction _) _ => destruct o
             end
         end.

(** Each voting block writes one of the component keys and leaves every
    other key as it found it. *)
Lemma vote_rsi_keys ind d :
  Forall (fun kv => In (fst kv) component_keys) d ->
  Forall (fun kv => In (fst kv) component_keys) (vote_rsi ind d).
Proof.
  intro H. unfold vote_rsi. vote_cases;
    try apply keys_dict_set; try assumption; unfold component_keys; simpl; tauto.
Qed.

Lemma vote_macd_keys ind d :
  Forall (fun kv => In (fst kv) component_keys) d ->
  Forall (fun kv => In (fst kv) component_keys) (vote_macd ind d).
Proof.
  intro H. unfold vote_macd. vote_cases;
    try apply keys_dict_set; try assumption; unfold component_keys; simpl; tauto.
Qed.

Lemma vote_bollinger_keys ind d :
  Forall (fun kv => In (fst kv) component_keys) d ->
  Forall (fun kv => In (fst kv) component_keys) (vote_bollinger ind d).
Proof.
  intro H. unfold vote_bollinger. cbv zeta. vote_cases;
    try apply keys_dict_set; try assumption; unfold component_keys; simpl; tauto.
Qed.

Lemma vote_pattern_keys pat d :
  Forall (fun kv => In (fst kv) component_keys) d ->
  Forall (fun kv => In (fst kv) component_keys) (vote_pattern pat d).
Proof.
  intro H. unfold vote_pattern. vote_cases;
    try apply keys_dict_set; try assumption; unfold component_keys; simpl; tauto.
Qed.

Lemma vote_trend_keys tr d :
  Forall (fun kv => In (fst kv) component_keys) d ->
  Forall (fun kv => In (fst kv) component_keys) (vote_trend tr d).
Proof.
  intro H. unfold vote_trend. vote_cases;
    try apply keys_dict_set; try assumption; unfold component_keys; simpl; tauto.
Qed.

Lemma vote_macd_other ind d (k : string) :
  k <> "macd" -> dict_get k (vote_macd ind d) = dict_get k d.
Proof.
  intro H. unfold vote_macd. vote_cases;
    try rewrite dict_get_set_other by assumption; reflexivity.
Qed.

Lemma vote_bollinger_other ind d (k : string) :
  k <> "bollinger" -> dict_get k (vote_bollinger ind d) = dict_get k d.
Proof.
  intro H. unfold vote_bollinger. cbv zeta. vote_cases;
    try rewrite dict_get_set_other by assumption; reflexivity.
Qed.

Lemma vote_pattern_other pat d (k : string) :
  k <> "pattern" -> dict_get k (vote_pattern pat d) = dict_get k d.
Proof.
  intro H. unfold vote_pattern. vote_cases;
    try rewrite dict_get_set_other by assumption; reflexivity.
Qed.

Lemma vote_trend_other tr d (k : string) :
  k <> "trend" -> dict_get k (vote_trend tr d) = dict_get k d.
Proof.
  intro H. unfold vote_trend. vote_cases;
    try rewrite dict_get_set_other by assumption; reflexivity.
Qed.

Lemma overall_vote_other d (k : string) :
  k <> "overall" -> dict_get k (overall_vote d) = dict_get k d.
Proof.
  intro H. unfold overall_vote. cbv zeta. vote_cases;
    try rewrite dict_get_set_other by assumption; reflexivity.
Qed.

Lemma component_signals_keys ind pat tr :
  Forall (fun kv => In (fst kv) component_keys) (component_signals ind pat tr).
Proof.
  unfold component_signals. cbv zeta.
  apply vote_trend_keys, vote_pattern_keys, vote_bollinger_keys,
    vote_macd_keys, vote_rsi_keys. constructor.
Qed.

Lemma component_signals_fresh ind pat tr :
  Forall (fun kv => fst kv <> "overall") (component_signals ind pat tr).
Proof.
  eapply Forall_impl; [|apply component_signals_keys].
  intros [k v] Hin Heq. simpl in *. subst k.
  unfold component_keys in Hin. simpl in Hin.
  repeat destruct Hin as [Hin|Hin]; try discriminate; contradiction.
Qed.

Lemma component_votes_generated ind pat tr :
  component_votes (_generate_signals ind pat tr)
  = dict_values (component_signals ind pat tr).
Proof.
  unfold component_votes, _generate_signals, overall_vote.
  repeat match goal with |- context [if ?c then _ else _] => destruct c end;
    now rewrite filter_set_fresh by apply component_signals_fresh.
Qed.

(** C5: the overall signal is [buy] exactly when strictly more of the
    component votes present are [buy] than [sell], [sell] exactly when
    strictly more are [sell], and [hold] exactly on a tie (which includes
    no buy and no sell vote at all). *)
Theorem overall_is_strict_majority ind pat tr :
  let s := _generate_signals ind pat tr in
  let buys := count_eq "buy" (component_votes s) in
  let sells := count_eq "sell" (component_votes s) in
  (dict_get "overall" s = Some "buy" <-> sells < buys) /\
  (dict_get "overall" s = Some "sell" <-> buys < sells) /\
  (dict_get "overall" s = Some "hold" <-> buys = sells).
Proof.
  cbv zeta. rewrite component_votes_generated.
  unfold _generate_signals, overall_vote.
  set (votes := dict_values (component_signals ind pat tr)).
  destruct (Nat.ltb (count_eq "sell" votes) (count_eq "buy" votes)) eqn:Hb;
    [|destruct (Nat.ltb (count_eq "buy" votes) (count_eq "sell" votes)) eqn:Hs];
    rewrite dict_get_set_same;
    rewrite ?Nat.ltb_lt, ?Nat.ltb_ge in *;
    repeat split; intros; try discriminate; try lia; reflexivity.
Qed.

(** What ends up under the key [rsi]. *)
Lemma rsi_vote ind pat tr :
  dict_get "rsi" (_generate_signals ind pat tr)
  = match rsi_14 ind with
    | Some r =>
        if truthy_float r
        then Some (if PrimFloat.ltb r 30%float then "buy"
                   else if gtb r 70%float then "sell" else "hold")
        else None
    | None => None
    end.
Proof.
  unfold _generate_signals, component_signals. cbv zeta.
  rewrite overall_vote_other, vote_trend_other, vote_pattern_other,
    vote_bollinger_other, vote_macd_other by discriminate.
  unfold vote_rsi. vote_cases; try rewrite dict_get_set_same; reflexivity.
Qed.

(** When the RSI is defined and not zero, the vote is the one the
    thresholds 30 and 70 give. *)
Lemma rsi_vote_nonzero ind pat tr (r : float) :
  rsi_14 ind = Some r -> truthy_float r = true ->
  (PrimFloat.ltb r 30%float = true ->
   dict_get "rsi" (_generate_signals ind pat tr) = Some "buy") /\
  (PrimFloat.ltb r 30%float = false -> gtb r 70%float = true ->
   dict_get "rsi" (_generate_signals ind pat tr) = Some "sell") /\
  (PrimFloat.ltb r 30%float = false -> gtb r 70%float = false ->
   dict_get "rsi" (_generate_signals ind pat tr) = Some "hold").
Proof.
  intros Hr Ht. rewrite rsi_vote, Hr, Ht.
  repeat split; intros; repeat match goal with H : _ = _ |- _ => rewrite H end;
    reflexivity.
Qed.

Lemma rsi_vote_undefined ind pat tr :
  rsi_14 ind = None -> dict_get "rsi" (_generate_signals ind pat tr) = None.
Proof. intro H. now rewrite rsi_vote, H. Qed.

(** Fifteen strictly falling closes have an RSI of exactly zero. *)
Example falling_market_rsi :
  last_item (TALibRef.rsi Sample.falling_closes 14) = Ok 0%float.
Proof. vm_compute. reflexivity. Qed.

(** C3, at the input on which the code departs from it: an RSI that is
    defined and equal to zero is below 30, yet the signals carry no [rsi]
    key, since the guard [if indicators.rsi_14:] is false for [0.0]. *)
Theorem zero_rsi_casts_no_vote pat tr :
  rsi_14 Sample.oversold = Some 0%float /\
  PrimFloat.ltb 0%float 30%float = true /\
  dict_get "rsi" (_generate_signals Sample.oversold pat tr) = None.
Proof.
  split; [reflexivity|]. split; [reflexivity|].
  rewrite rsi_vote. reflexivity.
Qed.

(** ** Trend *)

(** With both long averages defined and not zero, the EMA pair is never
    read: outside the two chains the trend is neutral with strength 50. *)
Lemma sma_rule_shadows_ema close high low ind tr (s50 s200 c : float) :
  sma_50 ind = Some s50 -> sma_200 ind = Some s200 ->
  truthy_float s50 = true -> truthy_float s200 = true ->
  last_item close = Ok c ->
  gtb c s50 && gtb s50 s200 = false ->
  PrimFloat.ltb c s50 && PrimFloat.ltb s50 s200 = false ->
  _analyze_trend close high low ind = Ok tr ->
  trend_direction tr = "neutral" /\ trend_strength tr = 50%float.
Proof.
  intros H50 H200 T50 T200 Hc Hup Hdown.
  unfold _analyze_trend, both_truthy.
  rewrite H50, H200, T50, T200. cbn [andb bind]. rewrite Hc. cbn [bind].
  rewrite Hup, Hdown. cbn [bind].
  destruct (Nat.ltb 0 (List.length close)); [|intros [= <-]; split; reflexivity].
  destruct (last_item high); [|discriminate].
  destruct (last_item low); [|discriminate].
  cbn. intros [= <-]. split; reflexivity.
Qed.

(** 150 closes of 10 followed by 50 closes of 0 average to exactly zero
    over the last 50 and to 7.5 over all 200. *)
Example collapsed_market_averages :
  last_item (TALibRef.sma Sample.collapsed_closes 50) = Ok 0%float /\
  last_item (TALibRef.sma Sample.collapsed_closes 200) = Ok 7.5%float.
Proof. split; vm_compute; reflexivity. Qed.

(** C8, at the input on which the code departs from it: both long
    averages are defined, neither chain holds, and still the EMA pair
    decides the trend, since [if indicators.sma_50 and indicators.sma_200:]
    is false when an average is [0.0]. *)
Theorem zero_average_consults_ema :
  sma_50 Sample.flat_sma50 = Some 0%float /\
  sma_200 Sample.flat_sma50 = Some 7.5%float /\
  gtb 0%float 0%float && gtb 0%float 7.5%float = false /\
  PrimFloat.ltb 0%float 0%float && PrimFloat.ltb 0%float 7.5%float = false /\
  exists tr,
    _analyze_trend [0%float] [0%float] [0%float] Sample.flat_sma50 = Ok tr /\
    trend_direction tr = "bearish" /\ trend_strength tr = 60%float.
Proof.
  repeat (split; [reflexivity|]).
  eexists. split; [vm_compute; reflexivity|]. split; reflexivity.
Qed.

Lemma trend_strength_values close high low ind tr :
  _analyze_trend close high low ind = Ok tr ->
  In (trend_strength tr) [50%float; 60%float; 75%float]
  /\ In (trend_direction tr) ["bullish"; "bearish"; "neutral"].
Proof.
  unfold _analyze_trend.
  destruct (both_truthy (sma_50 ind) (sma_200 ind)) as [[s50 s200]|].
  - destruct (last_item close) as [c|e]; cbn [bind]; [|discriminate].
    destruct (gtb c s50 && gtb s50 s200);
      [|destruct (PrimFloat.ltb c s50 && PrimFloat.ltb s50 s200)];
      cbn [bind];
      (destruct (Nat.ltb 0 (List.length close));
       [destruct (last_item high); [|discriminate];
        destruct (last_item low); [|discriminate]; cbn|]);
      intros [= <-]; cbn; tauto.
  - destruct (both_truthy (ema_12 ind) (ema_26 ind)) as [[e12 e26]|];
      [destruct (gtb e12 e26); [|destruct (PrimFloat.ltb e12 e26)]|];
      cbn [bind];
      (destruct (Nat.ltb 0 (List.length close));
       [destruct (last_item close); [|cbn; destruct (last_item high); [destruct (last_item low)|]; discriminate];
        destruct (last_item high); [|discriminate];
        destruct (last_item low); [|discriminate]; cbn|]);
      intros [= <-]; cbn; tauto.
Qed.

(** The trend analysis returns on every batch of at least one candle. *)
Lemma _analyze_trend_returns close high low ind (c h l : float) :
  exists tr,
    _analyze_trend (close ++ [c]) (high ++ [h]) (low ++ [l]) ind = Ok tr
    /\ pivot_points tr = pivot_table h l c.
Proof.
  unfold _analyze_trend. rewrite !last_item_app.
  assert (Hlen : Nat.ltb 0 (List.length (close ++ [c])) = true).
  { apply Nat.ltb_lt. rewrite length_app. simpl. lia. }
  rewrite Hlen.
  destruct (both_truthy (sma_50 ind) (sma_200 ind)) as [[s50 s200]|];
    cbn [bind];
    [destruct (gtb c s50 && gtb s50 s200);
     [|destruct (PrimFloat.ltb c s50 && PrimFloat.ltb s50 s200)]
    |destruct (both_truthy (ema_12 ind) (ema_26 ind)) as [[e12 e26]|];
     [destruct (gtb e12 e26); [|destruct (PrimFloat.ltb e12 e26)]|]];
    cbn; eexists; split; reflexivity.
Qed.

(** ** Confidence *)

Lemma indicator_count_le ind : indicator_count ind <= 17.
Proof.
  unfold indicator_count.
  etransitivity; [apply filter_length_le|].
  unfold dict_values, asdict. simpl. lia.
Qed.

Lemma pattern_points_cases (label : string) :
  In (pattern_points label) [Some 20%float; Some 12%float; Some 5%float; None].
Proof.
  unfold pattern_points.
  destruct (String.eqb label "strong"); [simpl; tauto|].
  destruct (String.eqb label "moderate"); [simpl; tauto|].
  destruct (String.eqb label "weak"); simpl; tauto.
Qed.

(** The confidence depends on the batch length only up to [min_periods],
    on the indicators only through the count of defined ones, and on the
    patterns only through the points of the label. *)
Lemma confidence_as_formula ind pat tr (data_points : nat) :
  _calculate_confidence ind pat tr data_points
  = confidence_formula (Nat.min data_points min_periods) (indicator_count ind)
                       (pattern_points (strength pat)) (trend_strength tr).
Proof.
  unfold _calculate_confidence, confidence_formula, pattern_points.
  destruct (Nat.leb min_periods data_points) eqn:E.
  - apply Nat.leb_le in E. rewrite Nat.min_r by exact E.
    rewrite Nat.leb_refl.
    destruct (String.eqb (strength pat) "strong"); [reflexivity|].
    destruct (String.eqb (strength pat) "moderate"); [reflexivity|].
    destruct (String.eqb (strength pat) "weak"); reflexivity.
  - apply Nat.leb_gt in E. rewrite Nat.min_l by lia.
    apply Nat.leb_gt in E. rewrite E.
    destruct (String.eqb (strength pat) "strong"); [reflexivity|].
    destruct (String.eqb (strength pat) "moderate"); [reflexivity|].
    destruct (String.eqb (strength pat) "weak"); reflexivity.
Qed.

(** The bounds hold at every combination the formula can be evaluated
    at -- batch lengths up to the saturation point, indicator counts up to
    the 17 fields, the pattern points, the three trend strengths -- by
    evaluation in binary64. *)
Lemma confidence_grid_holds :
  forallb (fun n =>
    forallb (fun count =>
      forallb (fun points =>
        forallb (fun strength =>
                   confidence_bounds points (confidence_formula n count points strength))
                [50%float; 60%float; 75%float])
              [Some 20%float; Some 12%float; Some 5%float; None])
            (seq 0 18))
          (seq 0 201) = true.
Proof. vm_compute. reflexivity. Qed.

Lemma confidence_grid_point (n count : nat) (points : option float) (ts : float) :
  n <= min_periods -> count <= 17 ->
  In points [Some 20%float; Some 12%float; Some 5%float; None] ->
  In ts [50%float; 60%float; 75%float] ->
  confidence_bounds points (confidence_formula n count points ts) = true.
Proof.
  intros Hn Hc Hp Ht.
  assert (Hn' : In n (seq 0 201)) by (apply in_seq; unfold min_periods in Hn; lia).
  assert (Hc' : In count (seq 0 18)) by (apply in_seq; lia).
  pose proof confidence_grid_holds as G.
  rewrite forallb_forall in G. apply (fun G => G n Hn') in G.
  rewrite forallb_forall in G. apply (fun G => G count Hc') in G.
  rewrite forallb_forall in G. apply (fun G => G points Hp) in G.
  rewrite forallb_forall in G. exact (G ts Ht).
Qed.

Lemma confidence_bounds_hold ind pat tr close high low (data_points : nat) :
  _analyze_trend close high low ind = Ok tr ->
  confidence_bounds (pattern_points (strength pat))
                    (_calculate_confidence ind pat tr data_points) = true.
Proof.
  intro Htr. rewrite confidence_as_formula.
  apply confidence_grid_point.
  - apply Nat.le_min_r.
  - apply indicator_count_le.
  - apply pattern_points_cases.
  - apply (trend_strength_values _ _ _ _ _ Htr).
Qed.

(** C4: the confidence the analyzer computes for a batch lies in
    [0, 100], whatever the batch length (one candle included), whatever
    the indicators and patterns: the coverage term divides by 12 while up
    to 17 indicators count, and the final [min] caps the sum. *)
Theorem confidence_within_0_100 ind pat tr close high low (data_points : nat) :
  _analyze_trend close high low ind = Ok tr ->
  PrimFloat.leb 0%float (_calculate_confidence ind pat tr data_points) = true /\
  PrimFloat.leb (_calculate_confidence ind pat tr data_points) 100%float = true.
Proof.
  intro Htr.
  pose proof (confidence_bounds_hold ind pat tr close high low data_points Htr) as B.
  unfold confidence_bounds in B.
  apply andb_prop in B. destruct B as [B _].
  apply andb_prop in B. exact B.
Qed.

(** ** Patterns *)

Lemma record_match_found acc n r :
  l_found (record_match acc n r)
  = if negb (Z.eqb r 0) then l_found acc ++ [n] else l_found acc.
Proof. unfold record_match. destruct (Z.eqb r 0), (Z.ltb 0 r); reflexivity. Qed.

Lemma record_match_bullish acc n r :
  l_bullish (record_match acc n r)
  = if Z.ltb 0 r then l_bullish acc ++ [n] else l_bullish acc.
Proof.
  unfold record_match.
  destruct (Z.eqb_spec r 0), (Z.ltb_spec 0 r); try reflexivity; lia.
Qed.

Lemma record_match_bearish acc n r :
  l_bearish (record_match acc n r)
  = if Z.ltb r 0 then l_bearish acc ++ [n] else l_bearish acc.
Proof.
  unfold record_match.
  destruct (Z.eqb_spec r 0), (Z.ltb_spec 0 r), (Z.ltb_spec r 0);
    try reflexivity; lia.
Qed.

Section Patterns.

Variable talib : TALib.
Variables open_prices high low close : list float.

Let reading := latest_reading talib open_prices high low close.

(** One of the three lists, with the test on the reading that decides
    whether a name is appended to it. *)
Variable list_of : PatternLists -> list string.
Variable listed : Z -> bool.
Hypothesis record_match_list :
  forall acc n r,
    list_of (record_match acc n r)
    = if listed r then list_of acc ++ [n] else list_of acc.

(** The catalog loop adds a name to the list exactly when the detector
    registered under it gives a reading that passes the test. *)
Lemma check_patterns_spec (todo : list (string * Detector)) :
  forall acc out,
    check_patterns talib todo open_prices high low close acc = Ok out ->
    forall name,
      In name (list_of out) <->
      In name (list_of acc) \/
      exists d v, In (name, d) todo /\ reading d = Ok v /\ listed v = true.
Proof.
  induction todo as [|[n d] rest IH]; intros acc out Hrun name.
  - simpl in Hrun. injection Hrun as <-.
    split; [tauto | intros [H|[d [v [[] _]]]]; exact H].
  - cbn [check_patterns] in Hrun.
    destruct (CDL talib d open_prices high low close) as [res|e] eqn:Hcdl;
      cbn [bind] in Hrun; [|discriminate].
    destruct (last_item res) as [r|e] eqn:Hlast; cbn [bind] in Hrun; [|discriminate].
    assert (Hread : reading d = Ok r).
    { unfold reading, latest_reading. rewrite Hcdl. cbn [bind]. exact Hlast. }
    rewrite (IH _ _ Hrun name), record_match_list.
    split.
    + intros [Hacc|[d' [v [Hin Hv]]]].
      * destruct (listed r) eqn:Hr; [|now left].
        apply in_app_iff in Hacc. destruct Hacc as [Hacc|[<-|[]]]; [now left|].
        right. exists d, r. split; [now left | split; assumption].
      * right. exists d', v. split; [now right | exact Hv].
    + intros [Hacc|[d' [v [[Heq|Hin] [Hv Hpass]]]]].
      * left. destruct (listed r); [apply in_app_iff|]; tauto.
      * injection Heq as <- <-. rewrite Hread in Hv. injection Hv as <-.
        left. rewrite Hpass. apply in_app_iff. right. now left.
      * right. exists d', v. tauto.
Qed.

End Patterns.

Lemma patterns_to_check_names : NoDup (map fst patterns_to_check).
Proof.
  unfold patterns_to_check. cbn [map fst].
  repeat (constructor; [cbn [In]; intuition discriminate|]).
  constructor.
Qed.

(** A name of the catalog is registered with one detector only. *)
Lemma registered_once {V} (d : dict V) :
  NoDup (map fst d) ->
  forall k a b, In (k, a) d -> In (k, b) d -> a = b.
Proof.
  induction d as [|[k' v'] rest IH]; intros Hnd k a b Ha Hb; [contradiction|].
  cbn [map fst] in Hnd. inversion Hnd as [|? ? Hnotin Hnd']; subst.
  destruct Ha as [Ha|Ha], Hb as [Hb|Hb].
  - congruence.
  - injection Ha as -> ->. exfalso. apply Hnotin.
    change k with (fst (k, b)). now apply in_map.
  - injection Hb as -> ->. exfalso. apply Hnotin.
    change k with (fst (k, a)). now apply in_map.
  - exact (IH Hnd' k a b Ha Hb).
Qed.

Lemma engulfing_registered (name : string) (d : Detector) :
  name = "BULLISH_ENGULFING" \/ name = "BEARISH_ENGULFING" ->
  In (name, d) patterns_to_check <-> d = CDLENGULFING.
Proof.
  intros Hname. split.
  - intro Hin. apply (registered_once _ patterns_to_check_names name d CDLENGULFING Hin).
    destruct Hname as [-> | ->]; unfold patterns_to_check; cbn [In]; tauto.
  - intros ->.
    destruct Hname as [-> | ->]; unfold patterns_to_check; cbn [In]; tauto.
Qed.

Lemma _recognize_patterns_lists talib open_prices high low close pat :
  _recognize_patterns talib open_prices high low close = Ok pat ->
  exists lists,
    check_patterns talib patterns_to_check open_prices high low close
                   {| l_found := []; l_bullish := []; l_bearish := [] |} = Ok lists
    /\ patterns_found pat = l_found lists
    /\ bullish_patterns pat = l_bullish lists
    /\ bearish_patterns pat = l_bearish lists
    /\ In (strength pat) ["weak"; "moderate"; "strong"].
Proof.
  unfold _recognize_patterns.
  destruct (check_patterns _ _ _ _ _ _ _) as [lists|e]; cbn [bind]; [|discriminate].
  intros [= <-]. exists lists. cbn.
  repeat (split; [reflexivity|]).
  repeat match goal with
         | |- context [if ?c then _ else _] => destruct c
         end; cbn; tauto.
Qed.

(** The test on a reading, read as a proposition. *)
Lemma listing_as_prop (A : Detector -> Prop) (B : Detector -> Z -> Prop)
      (test : Z -> bool) (Q : Z -> Prop) :
  (forall v, test v = true <-> Q v) ->
  (False \/ (exists d v, A d /\ B d v /\ test v = true))
  <-> (exists d v, A d /\ B d v /\ Q v).
Proof.
  intro Htest. split.
  - intros [[]|[d [v [Ha [Hb Ht]]]]]. exists d, v. rewrite <- Htest. tauto.
  - intros [d [v [Ha [Hb Hq]]]]. right. exists d, v. rewrite Htest. tauto.
Qed.

(** Where a pattern name is listed, in terms of the detector readings. *)
Lemma pattern_listing talib open_prices high low close pat (name : string) :
  _recognize_patterns talib open_prices high low close = Ok pat ->
  (In name (patterns_found pat) <->
   exists d v, In (name, d) patterns_to_check
               /\ latest_reading talib open_prices high low close d = Ok v
               /\ v <> 0%Z) /\
  (In name (bullish_patterns pat) <->
   exists d v, In (name, d) patterns_to_check
               /\ latest_reading talib open_prices high low close d = Ok v
               /\ (0 < v)%Z) /\
  (In name (bearish_patterns pat) <->
   exists d v, In (name, d) patterns_to_check
               /\ latest_reading talib open_prices high low close d = Ok v
               /\ (v < 0)%Z).
Proof.
  intro Hrun.
  destruct (_recognize_patterns_lists _ _ _ _ _ _ Hrun)
    as [lists [Hloop [-> [-> [-> _]]]]].
  pose proof (check_patterns_spec talib open_prices high low close
                l_found (fun r => negb (Z.eqb r 0)) record_match_found
                _ _ _ Hloop name) as Hf.
  pose proof (check_patterns_spec talib open_prices high low close
                l_bullish (fun r => Z.ltb 0 r) record_match_bullish
                _ _ _ Hloop name) as Hu.
  pose proof (check_patterns_spec talib open_prices high low close
                l_bearish (fun r => Z.ltb r 0) record_match_bearish
                _ _ _ Hloop name) as He.
  cbn [l_found l_bullish l_bearish In] in Hf, Hu, He.
  rewrite Hf, Hu, He.
  split; [|split]; apply listing_as_prop; intro v.
  - rewrite negb_true_iff. apply Z.eqb_neq.
  - apply Z.ltb_lt.
  - apply Z.ltb_lt.
Qed.

(** The two engulfing names are listed together. *)
Lemma engulfing_listing talib open_prices high low close pat
      (sign : Z -> Prop) (listed : string -> Prop) :
  (forall name,
      listed name <->
      exists d v, In (name, d) patterns_to_check
                  /\ latest_reading talib open_prices high low close d = Ok v
                  /\ sign v) ->
  _recognize_patterns talib open_prices high low close = Ok pat ->
  listed "BULLISH_ENGULFING" <-> listed "BEARISH_ENGULFING".
Proof.
  intros Hlisted _. rewrite !Hlisted. split.
  - intros [d [v [Hin Hv]]].
    apply engulfing_registered in Hin; [|now left]. subst d.
    exists CDLENGULFING, v. split; [|exact Hv].
    apply engulfing_registered; [now right | reflexivity].
  - intros [d [v [Hin Hv]]].
    apply engulfing_registered in Hin; [|now right]. subst d.
    exists CDLENGULFING, v. split; [|exact Hv].
    apply engulfing_registered; [now left | reflexivity].
Qed.

(** C10: in every pattern result the names [BULLISH_ENGULFING] and
    [BEARISH_ENGULFING] are found together or not at all; when they are
    found, both are in the bullish list or both are in the bearish list,
    since both are read from the one engulfing detector; and no name is
    in both the bullish and the bearish list. *)
Theorem engulfing_names_go_together talib open_prices high low close pat :
  _recognize_patterns talib open_prices high low close = Ok pat ->
  (In "BULLISH_ENGULFING" (patterns_found pat)
   <-> In "BEARISH_ENGULFING" (patterns_found pat)) /\
  (In "BULLISH_ENGULFING" (bullish_patterns pat)
   <-> In "BEARISH_ENGULFING" (bullish_patterns pat)) /\
  (In "BULLISH_ENGULFING" (bearish_patterns pat)
   <-> In "BEARISH_ENGULFING" (bearish_patterns pat)) /\
  (In "BULLISH_ENGULFING" (patterns_found pat) ->
   (In "BULLISH_ENGULFING" (bullish_patterns pat)
    /\ In "BEARISH_ENGULFING" (bullish_patterns pat))
   \/ (In "BULLISH_ENGULFING" (bearish_patterns pat)
       /\ In "BEARISH_ENGULFING" (bearish_patterns pat))) /\
  (forall name,
      ~ (In name (bullish_patterns pat) /\ In name (bearish_patterns pat))).
Proof.
  intro Hrun.
  pose proof (fun name => pattern_listing _ _ _ _ _ _ name Hrun) as L.
  split; [|split; [|split; [|split]]].
  - apply (engulfing_listing talib open_prices high low close pat
             (fun v => v <> 0%Z) (fun n => In n (patterns_found pat)));
      [intro name; apply (L name) | exact Hrun].
  - apply (engulfing_listing talib open_prices high low close pat
             (fun v => (0 < v)%Z) (fun n => In n (bullish_patterns pat)));
      [intro name; apply (L name) | exact Hrun].
  - apply (engulfing_listing talib open_prices high low close pat
             (fun v => (v < 0)%Z) (fun n => In n (bearish_patterns pat)));
      [intro name; apply (L name) | exact Hrun].
  - intro Hfound. apply (L "BULLISH_ENGULFING") in Hfound.
    destruct Hfound as [d [v [Hin [Hv Hnz]]]].
    apply engulfing_registered in Hin; [|now left]. subst d.
    assert (Hbull : In ("BULLISH_ENGULFING", CDLENGULFING) patterns_to_check)
      by (apply engulfing_registered; [now left | reflexivity]).
    assert (Hbear : In ("BEARISH_ENGULFING", CDLENGULFING) patterns_to_check)
      by (apply engulfing_registered; [now right | reflexivity]).
    destruct (Z.lt_total 0 v) as [Hpos|[Hz|Hneg]]; [left| congruence |right];
      split.
    + apply (L "BULLISH_ENGULFING"). exists CDLENGULFING, v. tauto.
    + apply (L "BEARISH_ENGULFING"). exists CDLENGULFING, v. tauto.
    + apply (L "BULLISH_ENGULFING"). exists CDLENGULFING, v. tauto.
    + apply (L "BEARISH_ENGULFING"). exists CDLENGULFING, v. tauto.
  - intros name [Hu He].
    apply (L name) in Hu. apply (L name) in He.
    destruct Hu as [d [v [Hin [Hv Hpos]]]].
    destruct He as [d' [v' [Hin' [Hv' Hneg]]]].
    assert (d = d') by exact (registered_once _ patterns_to_check_names _ _ _ Hin Hin').
    subst d'. rewrite Hv in Hv'. injection Hv' as <-. lia.
Qed.

(** The pattern recognizer returns whenever every candlestick function
    returns a non-empty array. *)
Lemma _recognize_patterns_returns talib open_prices high low close :
  (forall d, exists v, latest_reading talib open_prices high low close d = Ok v) ->
  exists pat, _recognize_patterns talib open_prices high low close = Ok pat.
Proof.
  intro Hread. unfold _recognize_patterns.
  assert (Hloop : forall todo acc, exists out,
             check_patterns talib todo open_prices high low close acc = Ok out).
  { induction todo as [|[n d] rest IH]; intro acc; [now exists acc|].
    cbn [check_patterns]. destruct (Hread d) as [v Hv].
    unfold latest_reading in Hv.
    destruct (CDL talib d open_prices high low close); cbn [bind] in *; [|discriminate].
    rewrite Hv. cbn [bind]. apply IH. }
  destruct (Hloop patterns_to_check
                  {| l_found := []; l_bullish := []; l_bearish := [] |}) as [out ->].
  cbn [bind]. eexists. reflexivity.
Qed.

(** C9: whenever the pattern recognizer and the trend analysis return,
    the strength label is one of [weak], [moderate], [strong] and adds at
    least 5 points, the trend strength is one of 50, 60, 75 and adds at
    least 10 points, and the confidence is at least 15. *)
Theorem confidence_at_least_15 talib open_prices high low close ind pat tr
        (data_points : nat) :
  _recognize_patterns talib open_prices high low close = Ok pat ->
  _analyze_trend close high low ind = Ok tr ->
  In (strength pat) ["weak"; "moderate"; "strong"] /\
  (exists p, pattern_points (strength pat) = Some p /\ PrimFloat.leb 5%float p = true) /\
  In (trend_strength tr) [50%float; 60%float; 75%float] /\
  PrimFloat.leb 10%float (trend_strength tr / 100 * 20)%float = true /\
  PrimFloat.leb 15%float (_calculate_confidence ind pat tr data_points) = true.
Proof.
  intros Hpat Htr.
  destruct (_recognize_patterns_lists _ _ _ _ _ _ Hpat) as [_ [_ [_ [_ [_ Hs]]]]].
  destruct (trend_strength_values _ _ _ _ _ Htr) as [Hts _].
  split; [exact Hs|].
  assert (Hp : exists p, pattern_points (strength pat) = Some p
                         /\ PrimFloat.leb 5%float p = true).
  { cbn [In] in Hs. destruct Hs as [<-|[<-|[<-|[]]]]; eexists; split; reflexivity. }
  split; [exact Hp|]. split; [exact Hts|]. split.
  - cbn [In] in Hts. destruct Hts as [<-|[<-|[<-|[]]]]; reflexivity.
  - pose proof (confidence_bounds_hold ind pat tr close high low data_points Htr) as B.
    destruct Hp as [p [Hp _]]. rewrite Hp in B.
    unfold confidence_bounds in B. apply andb_prop in B. exact (proj2 B).
Qed.

(** ** Indicator snapshot *)

Lemma snapshot_value_windowed (k : IndicatorKey) (a : IndicatorArrays) :
  windowed k = true ->
  snapshot_value k a = (x <- last_item (array_of k a) ;; Ok (float_or_none x)).
Proof. destruct k; try reflexivity; discriminate. Qed.

(** Fifteen of the seventeen keys are windowed; [obv] and [vwap] are
    defined from the first candle on. *)
Example windowed_keys :
  filter (fun k => negb (windowed k)) all_keys = [K_obv; K_vwap]
  /\ List.length (filter windowed all_keys) = 15.
Proof. split; reflexivity. Qed.

(** An array that is still inside the lookback ends in NaN. *)
Lemma warm_up_last (k : IndicatorKey) (xs : list float) (x : float) :
  warms_up k xs = true -> List.length xs < window k ->
  last_item xs = Ok x -> np_isnan x = true.
Proof.
  unfold warms_up, window. intros Hwarm Hlen Hlast.
  rewrite firstn_all2 in Hwarm by lia.
  rewrite forallb_forall in Hwarm.
  apply Hwarm, last_item_In, Hlast.
Qed.

(** C7, as the code has it: for a windowed indicator whose array has a
    last entry, the snapshot value is [None] -- not zero -- when the batch
    is shorter than the window (the array being inside TA-Lib's lookback)
    and when the last entry is NaN; every other last entry, the
    infinities included, is kept as the value. *)
Theorem undefined_inside_window (k : IndicatorKey) (a : IndicatorArrays) (x : float) :
  windowed k = true ->
  last_item (array_of k a) = Ok x ->
  (warms_up k (array_of k a) = true ->
   List.length (array_of k a) < window k ->
   snapshot_value k a = Ok None) /\
  (np_isnan x = true -> snapshot_value k a = Ok None) /\
  (np_isnan x = false -> snapshot_value k a = Ok (Some x)).
Proof.
  intros Hw Hlast.
  rewrite (snapshot_value_windowed k a Hw), Hlast. cbn [bind].
  unfold float_or_none.
  split; [|split].
  - intros Hwarm Hlen. now rewrite (warm_up_last k _ x Hwarm Hlen Hlast).
  - now intros ->.
  - now intros ->.
Qed.

(** A three-candle batch leaves [sma_200] undefined. *)
Lemma undefined_inside_window_sma_200 :
  snapshot_value K_sma_200 Sample.short_arrays = Ok None.
Proof.
  refine (proj1 (undefined_inside_window K_sma_200 Sample.short_arrays PrimFloat.nan
                   _ _) _ _).
  - reflexivity.
  - reflexivity.
  - reflexivity.
  - unfold window. simpl. lia.
Defined.

(** C7 as stated fails: twenty closes of 2^1023 overflow the moving
    total, the latest 20-period average is [+inf] -- not a finite number
    -- and the snapshot keeps it. *)
Lemma infinite_average_is_kept :
  windowed K_sma_20 = true /\
  last_item (array_of K_sma_20 Sample.huge_arrays) = Ok PrimFloat.infinity /\
  is_finite PrimFloat.infinity = false /\
  snapshot_value K_sma_20 Sample.huge_arrays = Ok (Some PrimFloat.infinity).
Proof. repeat split; vm_compute; reflexivity. Qed.

(** The [vwap] argument raises on every input, so no snapshot is ever
    built. *)
Lemma snapshot_value_vwap (a : IndicatorArrays) :
  snapshot_value K_vwap a = Raise "AttributeError".
Proof. reflexivity. Qed.

(** ** Pivot points *)

Lemma pivot_table_entries {A} `{Num A} (high low close : A) :
  pivot_table high low close
  = let pivot := ndiv (nadd (nadd high low) close) (nlit 3) in
    [ ("pivot", pivot);
      ("r1", nsub (nmul (nlit 2) pivot) low);
      ("r2", nadd pivot (nsub high low));
      ("r3", nadd high (nmul (nlit 2) (nsub pivot low)));
      ("s1", nsub (nmul (nlit 2) pivot) high);
      ("s2", nsub pivot (nsub high low));
      ("s3", nsub low (nmul (nlit 2) (nsub high pivot))) ].
Proof. reflexivity. Qed.

(** The identities of the floor-trader formulas in exact arithmetic. *)
Lemma pivot_identities_exact (high low close : Q) :
  let t := pivot_table high low close in
  (level "pivot" t == (high + low + close) / 3)%Q /\
  (level "r1" t + level "s1" t == 4 * level "pivot" t - (high + low))%Q /\
  (level "r1" t - level "s1" t == high - low)%Q /\
  (level "r2" t - level "s2" t == 2 * (high - low))%Q /\
  ((level "r1" t + level "s1" t == 2 * level "pivot" t)%Q
   <-> (2 * close == high + low)%Q).
Proof.
  cbv zeta. rewrite pivot_table_entries. cbv zeta.
  unfold level. cbn [dict_get String.eqb Ascii.eqb Bool.eqb].
  cbn [nadd nsub nmul ndiv nlit Num_Q].
  change (inject_Z (Z.of_nat 3)) with 3%Q.
  change (inject_Z (Z.of_nat 2)) with 2%Q.
  assert (E : (3 * ((high + low + close) / 3) == high + low + close)%Q) by field.
  set (pivot := ((high + low + close) / 3)%Q) in *.
  repeat split; try (intro H); lra.
Qed.

(** C1, as the code has it: on every batch of at least one candle the
    trend analysis returns, and its pivot table holds the floor-trader
    formulas of the most recent candle evaluated in binary64; read in
    exact arithmetic the formulas give [r1 + s1 = 4 pivot - (high + low)],
    which is [2 pivot] only when [2 close = high + low], together with
    [r1 - s1 = high - low] and [r2 - s2 = 2 (high - low)]. *)
Theorem pivot_points_floor_trader :
  (forall (close high low : list float) (c h l : float) (ind : TechnicalIndicators),
      exists tr,
        _analyze_trend (close ++ [c]) (high ++ [h]) (low ++ [l]) ind = Ok tr
        /\ pivot_points tr
           = (let pivot := ((h + l + c) / 3)%float in
              [ ("pivot", pivot);
                ("r1", (2 * pivot - l)%float);
                ("r2", (pivot + (h - l))%float);
                ("r3", (h + 2 * (pivot - l))%float);
                ("s1", (2 * pivot - h)%float);
                ("s2", (pivot - (h - l))%float);
                ("s3", (l - 2 * (h - pivot))%float) ])) /\
  (forall high low close : Q,
      let t := pivot_table high low close in
      (level "pivot" t == (high + low + close) / 3)%Q /\
      (level "r1" t + level "s1" t == 4 * level "pivot" t - (high + low))%Q /\
      (level "r1" t - level "s1" t == high - low)%Q /\
      (level "r2" t - level "s2" t == 2 * (high - low))%Q /\
      ((level "r1" t + level "s1" t == 2 * level "pivot" t)%Q
       <-> (2 * close == high + low)%Q)).
Proof.
  split.
  - intros close high low c h l ind.
    destruct (_analyze_trend_returns close high low ind c h l) as [tr [Hrun Hpp]].
    exists tr. split; [exact Hrun|]. rewrite Hpp. reflexivity.
  - exact pivot_identities_exact.
Qed.

(** C1 as stated fails on the candle high 12, low 9, close 11: the
    pivot is 32/3, [r1 + s1] is 65/3 and [2 pivot] is 64/3 -- in binary64
    as in exact arithmetic. *)
Lemma pivot_sum_is_not_twice_pivot :
  exists tr r1 s1 pivot,
    _analyze_trend [11%float] [12%float] [9%float] Sample.no_indicators = Ok tr
    /\ dict_get "r1" (pivot_points tr) = Some r1
    /\ dict_get "s1" (pivot_points tr) = Some s1
    /\ dict_get "pivot" (pivot_points tr) = Some pivot
    /\ PrimFloat.eqb (r1 + s1) (2 * pivot) = false
    /\ ~ (level "r1" (pivot_table (12#1) (9#1) (11#1))
          + level "s1" (pivot_table (12#1) (9#1) (11#1))
          == 2 * level "pivot" (pivot_table (12#1) (9#1) (11#1)))%Q.
Proof.
  do 4 eexists.
  split; [vm_compute; reflexivity|].
  split; [vm_compute; reflexivity|].
  split; [vm_compute; reflexivity|].
  split; [vm_compute; reflexivity|].
  split; [vm_compute; reflexivity|].
  vm_compute. discriminate.
Qed.

(** In binary64 the second identity can be off by rounding: a candle
    whose range is three units in the last place of its prices. *)
Example second_identity_rounds :
  let h := 0x1.0000000000001p0%float in
  let l := 0x1.fffffffffffffp-1%float in
  let c := 1%float in
  exists tr r2 s2,
    _analyze_trend [c] [h] [l] Sample.no_indicators = Ok tr
    /\ dict_get "r2" (pivot_points tr) = Some r2
    /\ dict_get "s2" (pivot_points tr) = Some s2
    /\ PrimFloat.eqb (r2 - s2) (2 * (h - l)) = false.
Proof.
  cbv zeta. do 3 eexists.
  repeat (split; [vm_compute; reflexivity|]).
  vm_compute. reflexivity.
Qed.

(** ** Input handling *)

(** A key no record carries is not a column of the frame. *)
Lemma absent_column (records : list Candle) (key : string) :
  (forall c, In c records -> candle_has key c = false) ->
  existsb (String.eqb key) (df_columns (pd_DataFrame records)) = false.
Proof.
  intro Habsent. apply not_true_is_false. intro H.
  apply existsb_exists in H. destruct H as [x [Hin Heq]].
  apply String.eqb_eq in Heq. subst x.
  unfold pd_DataFrame in Hin. cbn [df_columns] in Hin.
  apply filter_In in Hin. destruct Hin as [_ Hsome].
  apply existsb_exists in Hsome. destruct Hsome as [c [Hc Hhas]].
  rewrite (Habsent c Hc) in Hhas. discriminate.
Qed.

(** A batch in which a required field is missing from every record --
    the empty batch among them -- fails at the column lookup. *)
Lemma analyze_missing_column talib pandas (ohlcv_data : list Candle) (key : string) :
  In key required_fields ->
  (forall c, In c ohlcv_data -> candle_has key c = false) ->
  key = "timestamp"
  \/ (exists times,
         to_datetime pandas (map r_timestamp (map row_of ohlcv_data)) = Ok times) ->
  analyze talib pandas ohlcv_data = Raise "KeyError".
Proof.
  intros Hkey Habsent Htimes.
  pose proof (absent_column ohlcv_data key Habsent) as Hcol.
  unfold analyze. cbv zeta. unfold df_column at 1.
  destruct (existsb (String.eqb "timestamp") (df_columns (pd_DataFrame ohlcv_data)))
    eqn:Ets; [|reflexivity].
  destruct Htimes as [-> | [times Htimes]]; [congruence|].
  cbn [bind df_rows pd_DataFrame]. rewrite Htimes. cbn [bind].
  unfold df_column. cbn [df_columns df_set_timestamp pd_DataFrame].
  cbn [df_columns pd_DataFrame] in Hcol, Ets.
  unfold required_fields in Hkey. cbn [In] in Hkey.
  destruct Hkey as [<-|[<-|[<-|[<-|[<-|[<-|[]]]]]]]; [congruence| | | | |];
    rewrite Hcol;
    repeat match goal with
           | |- bind (if ?c then _ else _) _ = _ => destruct c; cbn [bind]
           end;
    reflexivity.
Qed.

(** C2, as the code has it: a batch that is empty, or in which one of
    the six required fields is missing from every record (the time
    conversion having succeeded when that field is not the time stamp),
    fails with [KeyError] -- the source has no error kind of its own --
    returns no result, and is reported by [main] as a failure of type
    [KeyError] with exit status 1. *)
Theorem missing_field_is_key_error talib pandas json_loads
        (ohlcv_data : list Candle) (key prog arg : string) :
  In key required_fields ->
  (forall c, In c ohlcv_data -> candle_has key c = false) ->
  key = "timestamp"
  \/ (exists times,
         to_datetime pandas (map r_timestamp (map row_of ohlcv_data)) = Ok times) ->
  json_loads arg = Ok ohlcv_data ->
  analyze talib pandas ohlcv_data = Raise "KeyError" /\
  main talib pandas json_loads [prog; arg] = Failure "KeyError" /\
  exit_status (main talib pandas json_loads [prog; arg]) = 1%Z.
Proof.
  intros Hkey Habsent Htimes Hjson.
  pose proof (analyze_missing_column talib pandas ohlcv_data key Hkey Habsent Htimes)
    as Hrun.
  assert (Hmain : main talib pandas json_loads [prog; arg] = Failure "KeyError").
  { unfold main. rewrite Hjson. cbn [bind]. now rewrite Hrun. }
  split; [exact Hrun|]. split; [exact Hmain|]. now rewrite Hmain.
Qed.

(** The empty batch on the command line. *)
Lemma missing_field_is_key_error_empty :
  analyze (Sample.talib_double Sample.quiet) Sample.pandas_double [] = Raise "KeyError" /\
  main (Sample.talib_double Sample.quiet) Sample.pandas_double Sample.json_double
       ["technical_analysis.py"; "[]"] = Failure "KeyError" /\
  exit_status (main (Sample.talib_double Sample.quiet) Sample.pandas_double
                    Sample.json_double ["technical_analysis.py"; "[]"]) = 1%Z.
Proof.
  apply (missing_field_is_key_error
           (Sample.talib_double Sample.quiet) Sample.pandas_double Sample.json_double
           [] "timestamp" "technical_analysis.py" "[]").
  - unfold required_fields. simpl. tauto.
  - intros c [].
  - left. reflexivity.
  - reflexivity.
Defined.

(** C2 as stated fails on the empty batch: the failure [main] reports
    is of type [KeyError], which is not [InvalidInputError]. *)
Lemma empty_batch_reports_key_error :
  main (Sample.talib_double Sample.quiet) Sample.pandas_double Sample.json_double
       ["technical_analysis.py"; "[]"] = Failure "KeyError"
  /\ "KeyError" <> "InvalidInputError".
Proof. split; [vm_compute; reflexivity | discriminate]. Qed.

(** A record that lacks a field other records carry is not rejected
    where the frame is built: the column exists and the hole is NaN. *)
Example hole_is_filled :
  let gap := {| c_timestamp := Some 1%Z; c_open := Some 10%float;
                c_high := Some 12%float; c_low := Some 9%float;
                c_close := Some 11%float; c_volume := None;
                c_symbol := None |} in
  df_column (pd_DataFrame [Sample.one_candle; gap]) "volume" r_volume
  = Ok [100%float; PrimFloat.nan].
Proof. vm_compute. reflexivity. Qed.

(** A batch whose only record has no time stamp fails the same way. *)
Example untimed_batch_run :
  analyze (Sample.talib_double Sample.quiet) Sample.pandas_double
          [Sample.untimed_candle] = Raise "KeyError".
Proof. vm_compute. reflexivity. Qed.

(** ** The pipeline as a whole *)

Ltac run_step :=
  match goal with
  | |- exists e, bind ?m _ = Raise e =>
      lazymatch m with
      | snapshot_value K_vwap _ => fail
      | _ => destruct m as [?|?]; cbn [bind]; [|eexists; reflexivity]
      end
  | |- exists e, (let '(_, _) := ?p in _) = Raise e => destruct p
  end.

(** Reading [vwap] through [.iloc] raises after every other argument has
    been evaluated: the snapshot is never built. *)
Lemma _calculate_indicators_raises talib close high low open_prices volume :
  exists e,
    _calculate_indicators talib close high low open_prices volume = Raise e.
Proof.
  unfold _calculate_indicators.
  repeat run_step.
  rewrite snapshot_value_vwap. cbn [bind]. eexists. reflexivity.
Qed.

(** Hence no batch is analysed to the end. *)
Lemma analyze_never_returns talib pandas (ohlcv_data : list Candle) :
  exists e, analyze talib pandas ohlcv_data = Raise e.
Proof.
  unfold analyze. cbv zeta.
  do 7 run_step.
  match goal with
  | |- exists e, bind (_calculate_indicators ?t ?c ?h ?l ?o ?v) _ = Raise e =>
      destruct (_calculate_indicators_raises t c h l o v) as [e ->]
  end.
  cbn [bind]. eexists. reflexivity.
Qed.

(** On the single candle of the specification's scenario the failure is
    the [AttributeError] of the [vwap] argument. *)
Example single_candle_run :
  analyze (Sample.talib_double Sample.quiet) Sample.pandas_double [Sample.one_candle]
  = Raise "AttributeError".
Proof. vm_compute. reflexivity. Qed.

(** ** The properties on the single candle of the scenario *)

Lemma confidence_within_0_100_single_candle :
  PrimFloat.leb 0%float
    (_calculate_confidence Sample.no_indicators Sample.no_patterns
                           Sample.single_trend 1) = true /\
  PrimFloat.leb
    (_calculate_confidence Sample.no_indicators Sample.no_patterns
                           Sample.single_trend 1) 100%float = true.
Proof.
  apply (confidence_within_0_100 Sample.no_indicators Sample.no_patterns
           Sample.single_trend [11%float] [12%float] [9%float] 1).
  vm_compute. reflexivity.
Defined.

Lemma confidence_at_least_15_single_candle :
  In (strength Sample.busy_patterns) ["weak"; "moderate"; "strong"] /\
  (exists p, pattern_points (strength Sample.busy_patterns) = Some p
             /\ PrimFloat.leb 5%float p = true) /\
  In (trend_strength Sample.single_trend) [50%float; 60%float; 75%float] /\
  PrimFloat.leb 10%float (trend_strength Sample.single_trend / 100 * 20)%float = true /\
  PrimFloat.leb 15%float
    (_calculate_confidence Sample.no_indicators Sample.busy_patterns
                           Sample.single_trend 1) = true.
Proof.
  apply (confidence_at_least_15 (Sample.talib_double Sample.busy)
           [10%float] [12%float] [9%float] [11%float]
           Sample.no_indicators Sample.busy_patterns Sample.single_trend 1).
  - vm_compute. reflexivity.
  - vm_compute. reflexivity.
Defined.

Lemma engulfing_names_go_together_busy :
  (In "BULLISH_ENGULFING" (patterns_found Sample.busy_patterns)
   <-> In "BEARISH_ENGULFING" (patterns_found Sample.busy_patterns)) /\
  (In "BULLISH_ENGULFING" (bullish_patterns Sample.busy_patterns)
   <-> In "BEARISH_ENGULFING" (bullish_patterns Sample.busy_patterns)) /\
  (In "BULLISH_ENGULFING" (bearish_patterns Sample.busy_patterns)
   <-> In "BEARISH_ENGULFING" (bearish_patterns Sample.busy_patterns)) /\
  (In "BULLISH_ENGULFING" (patterns_found Sample.busy_patterns) ->
   (In "BULLISH_ENGULFING" (bullish_patterns Sample.busy_patterns)
    /\ In "BEARISH_ENGULFING" (bullish_patterns Sample.busy_patterns))
   \/ (In "BULLISH_ENGULFING" (bearish_patterns Sample.busy_patterns)
       /\ In "BEARISH_ENGULFING" (bearish_patterns Sample.busy_patterns))) /\
  (forall name,
      ~ (In name (bullish_patterns Sample.busy_patterns)
         /\ In name (bearish_patterns Sample.busy_patterns))).
Proof.
  apply (engulfing_names_go_together (Sample.talib_double Sample.busy)
           [10%float] [12%float] [9%float] [11%float] Sample.busy_patterns).
  vm_compute. reflexivity.
Defined.

(** Under the [busy] detectors both engulfing names are listed, and both
    as bullish. *)
Example busy_engulfing_listed :
  patterns_found Sample.busy_patterns
  = ["HAMMER"; "BULLISH_ENGULFING"; "SHOOTING_STAR"; "BEARISH_ENGULFING"]
  /\ bullish_patterns Sample.busy_patterns
     = ["HAMMER"; "BULLISH_ENGULFING"; "BEARISH_ENGULFING"]
  /\ bearish_patterns Sample.busy_patterns = ["SHOOTING_STAR"]
  /\ strength Sample.busy_patterns = "strong".
Proof. repeat split; vm_compute; reflexivity. Qed.

(* ================================================================= *)
(** * Further properties of the analyzer *)

(** ** Pattern recognition *)

Lemma names_where_cons (test : Z -> bool) (rd : Detector -> Z)
      (n : string) (d : Detector) (rest : list (string * Detector)) :
  names_where test rd ((n, d) :: rest)
  = if test (rd d) then n :: names_where test rd rest
    else names_where test rd rest.
Proof. unfold names_where. cbn [filter snd]. now destruct (test (rd d)). Qed.

(** With every reading at hand the loop has a closed form: each list
    grows by the catalog names that pass its test, in catalog order. *)
Lemma check_patterns_closed_form talib open_prices high low close
      (rd : Detector -> Z) (todo : list (string * Detector)) :
  (forall n d, In (n, d) todo ->
               latest_reading talib open_prices high low close d = Ok (rd d)) ->
  forall acc, exists out,
    check_patterns talib todo open_prices high low close acc = Ok out
    /\ l_found out
       = l_found acc ++ names_where (fun r => negb (Z.eqb r 0)) rd todo
    /\ l_bullish out = l_bullish acc ++ names_where (Z.ltb 0) rd todo
    /\ l_bearish out = l_bearish acc ++ names_where (fun r => Z.ltb r 0) rd todo.
Proof.
  induction todo as [|[n d] rest IH]; intros Hread acc.
  - exists acc. cbn. now rewrite !app_nil_r.
  - assert (Hd : latest_reading talib open_prices high low close d = Ok (rd d))
      by (apply (Hread n); now left).
    unfold latest_reading in Hd. cbn [check_patterns].
    destruct (CDL talib d open_prices high low close) as [res|e];
      cbn [bind] in *; [|discriminate].
    rewrite Hd. cbn [bind].
    destruct (IH (fun n' d' H => Hread n' d' (or_intror H))
                 (record_match acc n (rd d))) as [out [Hrun [Hf [Hu He]]]].
    exists out. split; [exact Hrun|].
    rewrite Hf, Hu, He, !names_where_cons.
    rewrite record_match_found, record_match_bullish, record_match_bearish.
    repeat split.
    + destruct (negb (Z.eqb (rd d) 0)); [now rewrite <- app_assoc | reflexivity].
    + destruct (Z.ltb 0 (rd d)); [now rewrite <- app_assoc | reflexivity].
    + destruct (Z.ltb (rd d) 0); [now rewrite <- app_assoc | reflexivity].
Qed.

(** A loop that returns has read every detector of its catalog. *)
Lemma check_patterns_readings talib open_prices high low close
      (todo : list (string * Detector)) :
  forall acc out,
    check_patterns talib todo open_prices high low close acc = Ok out ->
    forall n d, In (n, d) todo ->
                exists v, latest_reading talib open_prices high low close d = Ok v.
Proof.
  induction todo as [|[n0 d0] rest IH]; intros acc out Hrun n d Hin; [contradiction|].
  cbn [check_patterns] in Hrun.
  destruct (CDL talib d0 open_prices high low close) as [res|e] eqn:Hcdl;
    cbn [bind] in Hrun; [|discriminate].
  destruct (last_item res) as [r|e] eqn:Hlast; cbn [bind] in Hrun; [|discriminate].
  destruct Hin as [Heq|Hin].
  - injection Heq as <- <-. exists r.
    unfold latest_reading. rewrite Hcdl. cbn [bind]. exact Hlast.
  - exact (IH _ _ Hrun n d Hin).
Qed.

Lemma detector_registered (d : Detector) :
  exists n, In (n, d) patterns_to_check.
Proof.
  destruct d; eexists; unfold patterns_to_check; cbn [In]; eauto 20.
Qed.

Lemma reading_or_zero_spec talib open_prices high low close pat :
  _recognize_patterns talib open_prices high low close = Ok pat ->
  forall d,
    latest_reading talib open_prices high low close d
    = Ok (reading_or_zero talib open_prices high low close d).
Proof.
  intros Hrun d.
  destruct (_recognize_patterns_lists _ _ _ _ _ _ Hrun) as [lists [Hloop _]].
  destruct (detector_registered d) as [n Hn].
  destruct (check_patterns_readings _ _ _ _ _ _ _ _ Hloop n d Hn) as [v Hv].
  unfold reading_or_zero. now rewrite Hv.
Qed.

(** The result in terms of the readings. *)
Lemma _recognize_patterns_closed_form talib open_prices high low close
      (rd : Detector -> Z) :
  (forall d, latest_reading talib open_prices high low close d = Ok (rd d)) ->
  exists pat,
    _recognize_patterns talib open_prices high low close = Ok pat
    /\ patterns_found pat
       = names_where (fun r => negb (Z.eqb r 0)) rd patterns_to_check
    /\ bullish_patterns pat = names_where (Z.ltb 0) rd patterns_to_check
    /\ bearish_patterns pat = names_where (fun r => Z.ltb r 0) rd patterns_to_check
    /\ strength pat
       = (if Nat.leb 3 (List.length (patterns_found pat)) then "strong"
          else if Nat.leb 2 (List.length (patterns_found pat)) then "moderate"
          else "weak").
Proof.
  intro Hread.
  destruct (check_patterns_closed_form talib open_prices high low close rd
              patterns_to_check (fun n d _ => Hread d)
              {| l_found := []; l_bullish := []; l_bearish := [] |})
    as [out [Hrun [Hf [Hu He]]]].
  cbn [l_found l_bullish l_bearish app] in Hf, Hu, He.
  unfold _recognize_patterns. rewrite Hrun. cbn [bind].
  eexists. split; [reflexivity|].
  cbn [patterns_found bullish_patterns bearish_patterns strength].
  repeat split; assumption.
Qed.

(** X4: when every candlestick function gives a reading, the recognizer
    returns the catalog names whose reading is non-zero, positive and
    negative -- each list in catalog order. *)
Theorem patterns_in_catalog_order talib open_prices high low close
        (rd : Detector -> Z) :
  (forall d, latest_reading talib open_prices high low close d = Ok (rd d)) ->
  exists pat,
    _recognize_patterns talib open_prices high low close = Ok pat
    /\ patterns_found pat
       = names_where (fun r => negb (Z.eqb r 0)) rd patterns_to_check
    /\ bullish_patterns pat = names_where (Z.ltb 0) rd patterns_to_check
    /\ bearish_patterns pat = names_where (fun r => Z.ltb r 0) rd patterns_to_check.
Proof.
  intro Hread.
  destruct (_recognize_patterns_closed_form _ _ _ _ _ rd Hread)
    as [pat [Hrun [Hf [Hu [He _]]]]].
  exists pat. tauto.
Qed.

Lemma patterns_in_catalog_order_busy :
  exists pat,
    _recognize_patterns (Sample.talib_double Sample.busy)
                        [10%float] [12%float] [9%float] [11%float] = Ok pat
    /\ patterns_found pat
       = names_where (fun r => negb (Z.eqb r 0)) Sample.busy patterns_to_check
    /\ bullish_patterns pat = names_where (Z.ltb 0) Sample.busy patterns_to_check
    /\ bearish_patterns pat
       = names_where (fun r => Z.ltb r 0) Sample.busy patterns_to_check.
Proof.
  apply (patterns_in_catalog_order (Sample.talib_double Sample.busy)
           [10%float] [12%float] [9%float] [11%float] Sample.busy).
  intro d. destruct d; reflexivity.
Defined.

Lemma names_where_incl (test : Z -> bool) (rd : Detector -> Z)
      (catalog : list (string * Detector)) (name : string) :
  In name (names_where test rd catalog) -> In name (map fst catalog).
Proof.
  unfold names_where. intro H. apply in_map_iff in H.
  destruct H as [entry [Hfst Hin]]. apply filter_In in Hin.
  apply in_map_iff. exists entry. tauto.
Qed.

Lemma names_where_NoDup (test : Z -> bool) (rd : Detector -> Z)
      (catalog : list (string * Detector)) :
  NoDup (map fst catalog) -> NoDup (names_where test rd catalog).
Proof.
  induction catalog as [|[n d] rest IH]; intro Hnd; [constructor|].
  cbn [map fst] in Hnd. inversion Hnd as [|? ? Hnotin Hrest]; subst.
  rewrite names_where_cons. destruct (test (rd d)); [|exact (IH Hrest)].
  constructor; [|exact (IH Hrest)].
  intro Hin. apply Hnotin. exact (names_where_incl _ _ _ _ Hin).
Qed.

Lemma names_where_length (test : Z -> bool) (rd : Detector -> Z)
      (catalog : list (string * Detector)) :
  List.length (names_where test rd catalog) <= List.length catalog.
Proof. unfold names_where. rewrite length_map. apply filter_length_le. Qed.

(** Every non-zero reading is positive or negative, never both. *)
Lemma names_where_split (rd : Detector -> Z) (catalog : list (string * Detector)) :
  List.length (names_where (fun r => negb (Z.eqb r 0)) rd catalog)
  = List.length (names_where (Z.ltb 0) rd catalog)
    + List.length (names_where (fun r => Z.ltb r 0) rd catalog).
Proof.
  induction catalog as [|[n d] rest IH]; [reflexivity|].
  rewrite !names_where_cons.
  destruct (Z.eqb_spec (rd d) 0), (Z.ltb_spec 0 (rd d)), (Z.ltb_spec (rd d) 0);
    cbn [negb List.length]; lia.
Qed.

(** X5: in every pattern result the found names are the bullish and
    the bearish ones together -- as many as both lists hold, without
    repetition, at most the 14 of the catalog -- and the label is
    [strong] from three found names on, [moderate] for exactly two and
    [weak] for one or none. *)
Theorem pattern_counts_and_label talib open_prices high low close pat :
  _recognize_patterns talib open_prices high low close = Ok pat ->
  List.length (patterns_found pat)
  = List.length (bullish_patterns pat) + List.length (bearish_patterns pat) /\
  List.length (patterns_found pat) <= 14 /\
  NoDup (patterns_found pat) /\
  (forall name,
      In name (patterns_found pat)
      <-> In name (bullish_patterns pat) \/ In name (bearish_patterns pat)) /\
  (strength pat = "strong" <-> 3 <= List.length (patterns_found pat)) /\
  (strength pat = "moderate" <-> List.length (patterns_found pat) = 2) /\
  (strength pat = "weak" <-> List.length (patterns_found pat) <= 1).
Proof.
  intro Hrun.
  pose proof (reading_or_zero_spec _ _ _ _ _ _ Hrun) as Hread.
  destruct (_recognize_patterns_closed_form _ _ _ _ _ _ Hread)
    as [pat' [Hrun' [Hf [Hu [He Hs]]]]].
  rewrite Hrun in Hrun'. injection Hrun' as <-.
  split; [rewrite Hf, Hu, He; apply names_where_split|].
  split; [rewrite Hf; apply (names_where_length _ _ patterns_to_check)|].
  split; [rewrite Hf; apply names_where_NoDup, patterns_to_check_names|].
  split.
  - intro name.
    destruct (pattern_listing _ _ _ _ _ _ name Hrun) as [Lf [Lu Le]].
    rewrite Lf, Lu, Le. split.
    + intros [d [v [Hin [Hv Hnz]]]].
      destruct (Z.lt_total 0 v) as [Hpos|[Hz|Hneg]]; [left| congruence |right];
        exists d, v; tauto.
    + intros [[d [v [Hin [Hv Hsign]]]]|[d [v [Hin [Hv Hsign]]]]];
        exists d, v; repeat split; try assumption; lia.
  - rewrite Hs.
    destruct (Nat.leb_spec 3 (List.length (patterns_found pat)));
      [|destruct (Nat.leb_spec 2 (List.length (patterns_found pat)))];
      repeat split; intros; try discriminate; try reflexivity; lia.
Qed.

Lemma pattern_counts_and_label_busy :
  List.length (patterns_found Sample.busy_patterns)
  = List.length (bullish_patterns Sample.busy_patterns)
    + List.length (bearish_patterns Sample.busy_patterns) /\
  List.length (patterns_found Sample.busy_patterns) <= 14 /\
  NoDup (patterns_found Sample.busy_patterns) /\
  (forall name,
      In name (patterns_found Sample.busy_patterns)
      <-> In name (bullish_patterns Sample.busy_patterns)
          \/ In name (bearish_patterns Sample.busy_patterns)) /\
  (strength Sample.busy_patterns = "strong"
   <-> 3 <= List.length (patterns_found Sample.busy_patterns)) /\
  (strength Sample.busy_patterns = "moderate"
   <-> List.length (patterns_found Sample.busy_patterns) = 2) /\
  (strength Sample.busy_patterns = "weak"
   <-> List.length (patterns_found Sample.busy_patterns) <= 1).
Proof.
  apply (pattern_counts_and_label (Sample.talib_double Sample.busy)
           [10%float] [12%float] [9%float] [11%float] Sample.busy_patterns).
  vm_compute. reflexivity.
Defined.

(** X6: the recognizer returns a result exactly when each of the
    thirteen candlestick functions returns an array with a last entry;
    one that raises, or returns an empty array, fails the whole call --
    with [IndexError] when the first of the catalog returns an empty
    array. *)
Theorem patterns_return_iff_readings talib open_prices high low close :
  ((exists pat, _recognize_patterns talib open_prices high low close = Ok pat)
   <-> (forall d, exists v,
           latest_reading talib open_prices high low close d = Ok v)) /\
  (CDL talib CDLHAMMER open_prices high low close = Ok [] ->
   _recognize_patterns talib open_prices high low close = Raise "IndexError").
Proof.
  split; [split|].
  - intros [pat Hrun] d. eexists.
    exact (reading_or_zero_spec _ _ _ _ _ _ Hrun d).
  - apply _recognize_patterns_returns.
  - intro Hempty. unfold _recognize_patterns, patterns_to_check.
    cbn [check_patterns]. rewrite Hempty. reflexivity.
Qed.

(** ** Trend analysis *)

(** Two different float constants are different floats. *)
Ltac float_clash :=
  match goal with
  | H : ?a = ?b :> float |- _ =>
      let E := fresh "E" in
      assert (E : PrimFloat.eqb a b = true) by (rewrite H; reflexivity);
      vm_compute in E; discriminate E
  end.

(** Case analysis on the rule that decides the trend. *)
Ltac trend_rule ind close :=
  destruct (both_truthy (sma_50 ind) (sma_200 ind)) as [[? ?]|];
  [ destruct (last_item close) as [?c|?e]; cbn [bind]; [|discriminate];
    match goal with
    | |- context [gtb ?c ?s50 && gtb ?s50 ?s200] =>
        destruct (gtb c s50 && gtb s50 s200);
        [|destruct (PrimFloat.ltb c s50 && PrimFloat.ltb s50 s200)]
    end
  | destruct (both_truthy (ema_12 ind) (ema_26 ind)) as [[?e12 ?e26]|];
    [ match goal with
      | |- context [gtb ?a ?b] =>
          destruct (gtb a b); [|destruct (PrimFloat.ltb a b)]
      end | ] ];
  cbn [bind].

(** Case analysis on the pivot block once the rule is decided. *)
Ltac pivot_block close high low :=
  destruct (Nat.ltb 0 (List.length close));
  [ destruct (last_item high); cbn [bind]; [|discriminate];
    destruct (last_item low); cbn [bind]; [|discriminate];
    try (destruct (last_item close); cbn [bind]; [|discriminate]);
    cbn | ].

(** X7: on an empty close series the trend analysis raises
    [IndexError] when both long averages are truthy (the rule reads
    [close[-1]]) and otherwise returns a trend with no levels and an
    empty pivot table; a non-empty close series beside an empty high or
    low series raises [IndexError]. *)
Theorem trend_on_empty_series (ind : TechnicalIndicators) :
  (forall high low,
      match both_truthy (sma_50 ind) (sma_200 ind) with
      | Some _ => _analyze_trend [] high low ind = Raise "IndexError"
      | None =>
          exists tr,
            _analyze_trend [] high low ind = Ok tr
            /\ support_levels tr = [] /\ resistance_levels tr = []
            /\ pivot_points tr = []
      end) /\
  (forall close c low, _analyze_trend (close ++ [c]) [] low ind = Raise "IndexError") /\
  (forall close c high h,
      _analyze_trend (close ++ [c]) (high ++ [h]) [] ind = Raise "IndexError").
Proof.
  split; [|split].
  - intros high low. unfold _analyze_trend.
    destruct (both_truthy (sma_50 ind) (sma_200 ind)) as [[s50 s200]|];
      [reflexivity|].
    destruct (both_truthy (ema_12 ind) (ema_26 ind)) as [[e12 e26]|];
      [destruct (gtb e12 e26); [|destruct (PrimFloat.ltb e12 e26)]|];
      cbn; eexists; repeat split; reflexivity.
  - intros close c low. unfold _analyze_trend. rewrite !last_item_app.
    assert (Hlen : Nat.ltb 0 (List.length (close ++ [c])) = true)
      by (apply Nat.ltb_lt; rewrite length_app; simpl; lia).
    rewrite Hlen.
    destruct (both_truthy (sma_50 ind) (sma_200 ind)) as [[s50 s200]|];
      cbn [bind];
      [destruct (gtb c s50 && gtb s50 s200);
       [|destruct (PrimFloat.ltb c s50 && PrimFloat.ltb s50 s200)]
      |destruct (both_truthy (ema_12 ind) (ema_26 ind)) as [[e12 e26]|];
       [destruct (gtb e12 e26); [|destruct (PrimFloat.ltb e12 e26)]|]];
      reflexivity.
  - intros close c high h. unfold _analyze_trend. rewrite !last_item_app.
    assert (Hlen : Nat.ltb 0 (List.length (close ++ [c])) = true)
      by (apply Nat.ltb_lt; rewrite length_app; simpl; lia).
    rewrite Hlen.
    destruct (both_truthy (sma_50 ind) (sma_200 ind)) as [[s50 s200]|];
      cbn [bind];
      [destruct (gtb c s50 && gtb s50 s200);
       [|destruct (PrimFloat.ltb c s50 && PrimFloat.ltb s50 s200)]
      |destruct (both_truthy (ema_12 ind) (ema_26 ind)) as [[e12 e26]|];
       [destruct (gtb e12 e26); [|destruct (PrimFloat.ltb e12 e26)]|]];
      reflexivity.
Qed.

(** X8: in every trend result the direction is [neutral] exactly when
    the strength is 50; a strength of 75 comes from the SMA rule only
    (both long averages truthy) and a strength of 60 from the EMA rule
    only (the SMA pair not truthy, both EMAs truthy). *)
Theorem trend_direction_and_strength close high low ind tr :
  _analyze_trend close high low ind = Ok tr ->
  (trend_direction tr = "neutral" <-> trend_strength tr = 50%float) /\
  (trend_strength tr = 75%float
   <-> trend_direction tr <> "neutral"
       /\ both_truthy (sma_50 ind) (sma_200 ind) <> None) /\
  (trend_strength tr = 60%float
   <-> trend_direction tr <> "neutral"
       /\ both_truthy (sma_50 ind) (sma_200 ind) = None
       /\ both_truthy (ema_12 ind) (ema_26 ind) <> None).
Proof.
  unfold _analyze_trend.
  trend_rule ind close; pivot_block close high low;
    intros [= <-]; cbn [trend_direction trend_strength];
    repeat split; intros;
    repeat match goal with H : _ /\ _ |- _ => destruct H end;
    try discriminate; try congruence; try float_clash.
Qed.

Lemma trend_direction_and_strength_flat :
  (trend_direction Sample.single_trend = "neutral"
   <-> trend_strength Sample.single_trend = 50%float) /\
  (trend_strength Sample.single_trend = 75%float
   <-> trend_direction Sample.single_trend <> "neutral"
       /\ both_truthy (sma_50 Sample.no_indicators) (sma_200 Sample.no_indicators)
          <> None) /\
  (trend_strength Sample.single_trend = 60%float
   <-> trend_direction Sample.single_trend <> "neutral"
       /\ both_truthy (sma_50 Sample.no_indicators) (sma_200 Sample.no_indicators)
          = None
       /\ both_truthy (ema_12 Sample.no_indicators) (ema_26 Sample.no_indicators)
          <> None).
Proof.
  apply (trend_direction_and_strength [11%float] [12%float] [9%float]
           Sample.no_indicators Sample.single_trend).
  vm_compute. reflexivity.
Defined.

(** X9: on every batch of at least one candle the resistance levels
    are [r1, r2, r3] and the support levels [s1, s2, s3] of the most
    recent candle, in that order, as the pivot table holds them. *)
Theorem levels_mirror_pivot_table
        (close high low : list float) (c h l : float) (ind : TechnicalIndicators) :
  exists tr,
    _analyze_trend (close ++ [c]) (high ++ [h]) (low ++ [l]) ind = Ok tr
    /\ map Some (resistance_levels tr)
       = map (fun key => dict_get key (pivot_points tr)) ["r1"; "r2"; "r3"]
    /\ map Some (support_levels tr)
       = map (fun key => dict_get key (pivot_points tr)) ["s1"; "s2"; "s3"]
    /\ resistance_levels tr
       = (let pivot := ((h + l + c) / 3)%float in
          [ (2 * pivot - l)%float; (pivot + (h - l))%float;
            (h + 2 * (pivot - l))%float ])
    /\ support_levels tr
       = (let pivot := ((h + l + c) / 3)%float in
          [ (2 * pivot - h)%float; (pivot - (h - l))%float;
            (l - 2 * (h - pivot))%float ]).
Proof.
  unfold _analyze_trend. rewrite !last_item_app.
  assert (Hlen : Nat.ltb 0 (List.length (close ++ [c])) = true)
    by (apply Nat.ltb_lt; rewrite length_app; simpl; lia).
  rewrite Hlen.
  destruct (both_truthy (sma_50 ind) (sma_200 ind)) as [[s50 s200]|];
    cbn [bind];
    [destruct (gtb c s50 && gtb s50 s200);
     [|destruct (PrimFloat.ltb c s50 && PrimFloat.ltb s50 s200)]
    |destruct (both_truthy (ema_12 ind) (ema_26 ind)) as [[e12 e26]|];
     [destruct (gtb e12 e26); [|destruct (PrimFloat.ltb e12 e26)]|]];
    cbn; eexists; repeat split; reflexivity.
Qed.

(** ** Signal synthesis *)

Lemma dict_set_keys {V} (k : string) (v : V) (d : dict V) :
  map fst (dict_set k v d)
  = if existsb (String.eqb k) (map fst d) then map fst d else map fst d ++ [k].
Proof.
  induction d as [|[k' v'] rest IH]; [reflexivity|].
  cbn [dict_set map fst existsb].
  destruct (String.eqb k k') eqn:E; cbn [orb map fst]; [reflexivity|].
  rewrite IH. now destruct (existsb (String.eqb k) (map fst rest)).
Qed.

Lemma dict_set_fresh {V} (k : string) (v : V) (d : dict V) :
  dict_get k d = None -> dict_set k v d = d ++ [(k, v)].
Proof.
  induction d as [|[k' v'] rest IH]; [reflexivity|].
  cbn [dict_get dict_set app]. destruct (String.eqb k k'); [discriminate|].
  intro H. now rewrite IH.
Qed.

Lemma dict_set_well_formed (k v : string) (d : dict string) :
  In k signal_keys -> In v signal_votes ->
  signals_well_formed d -> signals_well_formed (dict_set k v d).
Proof.
  intros Hk Hv [Hnd Hall]. split.
  - rewrite dict_set_keys.
    destruct (existsb (String.eqb k) (map fst d)) eqn:E; [exact Hnd|].
    apply NoDup_app; [exact Hnd | repeat constructor; intros [] | ].
    intros x Hx [Heq|[]]. subst x.
    assert (existsb (String.eqb k) (map fst d) = true)
      by (apply existsb_exists; exists k; split; [exact Hx | apply String.eqb_refl]).
    congruence.
  - clear Hnd. induction Hall as [|[k' v'] rest Hhd Htl IH]; cbn [dict_set].
    + constructor; [split; assumption | constructor].
    + destruct (String.eqb k k'); constructor; try assumption.
      cbn [fst snd] in *. tauto.
Qed.

Ltac well_formed_vote :=
  vote_cases; try assumption;
  apply dict_set_well_formed; try assumption;
  unfold signal_keys, signal_votes; cbn [In]; tauto.

Lemma vote_rsi_well_formed ind d :
  signals_well_formed d -> signals_well_formed (vote_rsi ind d).
Proof. intro H. unfold vote_rsi. well_formed_vote. Qed.

Lemma vote_macd_well_formed ind d :
  signals_well_formed d -> signals_well_formed (vote_macd ind d).
Proof. intro H. unfold vote_macd. well_formed_vote. Qed.

Lemma vote_bollinger_well_formed ind d :
  signals_well_formed d -> signals_well_formed (vote_bollinger ind d).
Proof. intro H. unfold vote_bollinger. cbv zeta. well_formed_vote. Qed.

Lemma vote_pattern_well_formed pat d :
  signals_well_formed d -> signals_well_formed (vote_pattern pat d).
Proof. intro H. unfold vote_pattern. well_formed_vote. Qed.

Lemma vote_trend_well_formed tr d :
  signals_well_formed d -> signals_well_formed (vote_trend tr d).
Proof. intro H. unfold vote_trend. well_formed_vote. Qed.

Lemma overall_vote_well_formed d :
  signals_well_formed d -> signals_well_formed (overall_vote d).
Proof. intro H. unfold overall_vote. cbv zeta. well_formed_vote. Qed.

Lemma vote_rsi_other ind d (k : string) :
  k <> "rsi" -> dict_get k (vote_rsi ind d) = dict_get k d.
Proof.
  intro H. unfold vote_rsi. vote_cases;
    try rewrite dict_get_set_other by assumption; reflexivity.
Qed.

Lemma component_signals_no_overall ind pat tr :
  dict_get "overall" (component_signals ind pat tr) = None.
Proof.
  unfold component_signals. cbv zeta.
  now rewrite vote_trend_other, vote_pattern_other, vote_bollinger_other,
    vote_macd_other, vote_rsi_other by discriminate.
Qed.

(** What the pattern and trend blocks store. *)
Lemma vote_pattern_value pat d :
  dict_get "pattern" (vote_pattern pat d)
  = Some (if Nat.ltb (List.length (bearish_patterns pat))
                     (List.length (bullish_patterns pat)) then "buy"
          else if Nat.ltb (List.length (bullish_patterns pat))
                          (List.length (bearish_patterns pat)) then "sell"
          else "hold").
Proof. unfold vote_pattern. vote_cases; apply dict_get_set_same. Qed.

Lemma vote_trend_value tr d :
  dict_get "trend" (vote_trend tr d)
  = Some (if String.eqb (trend_direction tr) "bullish" then "buy"
          else if String.eqb (trend_direction tr) "bearish" then "sell"
          else "hold").
Proof. unfold vote_trend. vote_cases; apply dict_get_set_same. Qed.

(** X11: every signals mapping has distinct keys, all among [rsi],
    [macd], [bollinger], [pattern], [trend], [overall], and values among
    [buy], [sell], [hold]; [pattern], [trend] and [overall] are always
    present, and [overall] is the last entry, after at most five
    component votes. *)
Theorem signals_shape ind pat tr :
  let s := _generate_signals ind pat tr in
  NoDup (map fst s) /\
  (forall k v, In (k, v) s -> In k signal_keys /\ In v signal_votes) /\
  dict_get "pattern" s <> None /\
  dict_get "trend" s <> None /\
  (exists components v,
      s = components ++ [("overall", v)]
      /\ dict_get "overall" components = None
      /\ List.length components <= 5).
Proof.
  cbv zeta.
  assert (Hwf : signals_well_formed (_generate_signals ind pat tr)).
  { unfold _generate_signals, component_signals. cbv zeta.
    apply overall_vote_well_formed, vote_trend_well_formed,
      vote_pattern_well_formed, vote_bollinger_well_formed,
      vote_macd_well_formed, vote_rsi_well_formed.
    split; constructor. }
  destruct Hwf as [Hnd Hall].
  split; [exact Hnd|]. split.
  - intros k v Hin. rewrite Forall_forall in Hall. exact (Hall (k, v) Hin).
  - unfold _generate_signals.
    rewrite !overall_vote_other by discriminate.
    unfold component_signals at 1 2. cbv zeta.
    rewrite vote_trend_other by discriminate.
    rewrite vote_pattern_value, vote_trend_value.
    split; [discriminate|]. split; [discriminate|].
    pose proof (component_signals_no_overall ind pat tr) as Hfresh.
    exists (component_signals ind pat tr).
    unfold overall_vote. cbv zeta.
    assert (Hlen : List.length (component_signals ind pat tr) <= 5).
    { pose proof (component_signals_keys ind pat tr) as Hkeys.
      assert (Hnd' : NoDup (map fst (component_signals ind pat tr))).
      { unfold component_signals. cbv zeta.
        apply vote_trend_well_formed, vote_pattern_well_formed,
          vote_bollinger_well_formed, vote_macd_well_formed, vote_rsi_well_formed.
        split; constructor. }
      rewrite <- (length_map fst).
      change 5 with (List.length component_keys).
      apply NoDup_incl_length; [exact Hnd'|].
      intros k Hk. apply in_map_iff in Hk. destruct Hk as [[k' v'] [<- Hin]].
      rewrite Forall_forall in Hkeys. exact (Hkeys _ Hin). }
    repeat match goal with
           | |- context [if ?c then _ else _] => destruct c
           end;
      eexists; (split; [apply dict_set_fresh, Hfresh | split; [exact Hfresh | exact Hlen]]).
Qed.

(** X12: each component key of the signals mapping holds the vote of
    its own block, whatever the other blocks add.  [macd] is present
    exactly when the MACD line and its signal line are both truthy
    (defined and not zero), [bollinger] exactly when both bands are, with
    VWAP -- or 0 when it is undefined or zero -- as the price;
    [pattern] and [trend] are always present. *)
Theorem component_votes_survive ind pat tr :
  let s := _generate_signals ind pat tr in
  dict_get "macd" s
  = match both_truthy (macd ind) (macd_signal ind) with
    | Some (m, sig) =>
        Some (if gtb m sig then "buy"
              else if PrimFloat.ltb m sig then "sell" else "hold")
    | None => None
    end /\
  dict_get "bollinger" s
  = match both_truthy (bb_upper ind) (bb_lower ind) with
    | Some (upper, lower) =>
        Some (if PrimFloat.leb (vwap_or_zero (vwap ind)) lower then "buy"
              else if geb (vwap_or_zero (vwap ind)) upper then "sell"
              else "hold")
    | None => None
    end /\
  dict_get "pattern" s
  = Some (if Nat.ltb (List.length (bearish_patterns pat))
                     (List.length (bullish_patterns pat)) then "buy"
          else if Nat.ltb (List.length (bullish_patterns pat))
                          (List.length (bearish_patterns pat)) then "sell"
          else "hold") /\
  dict_get "trend" s
  = Some (if String.eqb (trend_direction tr) "bullish" then "buy"
          else if String.eqb (trend_direction tr) "bearish" then "sell"
          else "hold").
Proof.
  cbv zeta. unfold _generate_signals.
  rewrite !overall_vote_other by discriminate.
  unfold component_signals. cbv zeta.
  repeat split.
  - rewrite vote_trend_other, vote_pattern_other, vote_bollinger_other
      by discriminate.
    unfold vote_macd.
    destruct (both_truthy (macd ind) (macd_signal ind)) as [[m sig]|].
    + vote_cases; apply dict_get_set_same.
    + now rewrite vote_rsi_other by discriminate.
  - rewrite vote_trend_other, vote_pattern_other by discriminate.
    unfold vote_bollinger. cbv zeta.
    destruct (both_truthy (bb_upper ind) (bb_lower ind)) as [[upper lower]|].
    + vote_cases; apply dict_get_set_same.
    + now rewrite vote_macd_other, vote_rsi_other by discriminate.
  - rewrite vote_trend_other by discriminate. apply vote_pattern_value.
  - apply vote_trend_value.
Qed.

(** X13: with VWAP undefined the price compared with the bands is 0,
    so whenever both bands are truthy and the lower band is not
    negative the Bollinger vote is [buy]. *)
Theorem bollinger_without_vwap ind pat tr (upper lower : float) :
  vwap ind = None ->
  bb_upper ind = Some upper -> bb_lower ind = Some lower ->
  truthy_float upper = true -> truthy_float lower = true ->
  PrimFloat.leb 0%float lower = true ->
  dict_get "bollinger" (_generate_signals ind pat tr) = Some "buy".
Proof.
  intros Hv Hu Hl Tu Tl Hpos.
  unfold _generate_signals.
  rewrite overall_vote_other by discriminate.
  unfold component_signals. cbv zeta.
  rewrite vote_trend_other, vote_pattern_other by discriminate.
  unfold vote_bollinger, both_truthy. cbv zeta.
  rewrite Hu, Hl, Tu, Tl, Hv. cbn [andb vwap_or_zero].
  rewrite Hpos. apply dict_get_set_same.
Qed.

Lemma bollinger_without_vwap_bands :
  dict_get "bollinger"
    (_generate_signals Sample.bands_only Sample.no_patterns Sample.neutral_trend)
  = Some "buy".
Proof.
  apply (bollinger_without_vwap Sample.bands_only Sample.no_patterns
           Sample.neutral_trend 110%float 90%float); reflexivity.
Defined.

(** ** Confidence, continued *)

(** One more candle, or one more defined indicator, never lowers the
    value of the formula: checked at every point of the grid, in
    binary64. *)
Lemma confidence_step_grid :
  forallb (fun n =>
    forallb (fun count =>
      forallb (fun points =>
        forallb (fun strength =>
                   PrimFloat.leb
                     (confidence_formula n count points strength)
                     (confidence_formula (Nat.min (S n) 200) count points strength)
                   && PrimFloat.leb
                        (confidence_formula n count points strength)
                        (confidence_formula n (Nat.min (S count) 17) points strength))
                [50%float; 60%float; 75%float])
              [Some 20%float; Some 12%float; Some 5%float; None])
            (seq 0 18))
          (seq 0 201) = true.
Proof. vm_compute. reflexivity. Qed.

Lemma confidence_step_point (n count : nat) (points : option float) (ts : float) :
  n <= min_periods -> count <= 17 ->
  In points [Some 20%float; Some 12%float; Some 5%float; None] ->
  In ts [50%float; 60%float; 75%float] ->
  PrimFloat.leb (confidence_formula n count points ts)
                (confidence_formula (Nat.min (S n) 200) count points ts) = true
  /\ PrimFloat.leb (confidence_formula n count points ts)
                   (confidence_formula n (Nat.min (S count) 17) points ts) = true.
Proof.
  intros Hn Hc Hp Ht.
  assert (Hn' : In n (seq 0 201)) by (apply in_seq; unfold min_periods in Hn; lia).
  assert (Hc' : In count (seq 0 18)) by (apply in_seq; lia).
  pose proof confidence_step_grid as G.
  rewrite forallb_forall in G. apply (fun G => G n Hn') in G.
  rewrite forallb_forall in G. apply (fun G => G count Hc') in G.
  rewrite forallb_forall in G. apply (fun G => G points Hp) in G.
  rewrite forallb_forall in G. apply (fun G => G ts Ht) in G.
  apply andb_prop in G. exact G.
Qed.

(** X14: for every trend the analysis returns, one more candle never
    lowers the confidence and from [min_periods] = 200 candles on the
    batch length no longer changes it; one more defined indicator never
    lowers it, and two snapshots with equally many defined indicators
    get the same confidence, whatever the indicator values are. *)
Theorem confidence_never_drops ind pat tr close high low (n : nat) :
  _analyze_trend close high low ind = Ok tr ->
  PrimFloat.leb (_calculate_confidence ind pat tr n)
                (_calculate_confidence ind pat tr (S n)) = true /\
  (forall m, min_periods <= n -> min_periods <= m ->
             _calculate_confidence ind pat tr m = _calculate_confidence ind pat tr n) /\
  (forall ind', indicator_count ind' = S (indicator_count ind) ->
                PrimFloat.leb (_calculate_confidence ind pat tr n)
                              (_calculate_confidence ind' pat tr n) = true) /\
  (forall ind', indicator_count ind' = indicator_count ind ->
                _calculate_confidence ind' pat tr n = _calculate_confidence ind pat tr n).
Proof.
  intro Htr.
  destruct (trend_strength_values _ _ _ _ _ Htr) as [Hts _].
  pose proof (pattern_points_cases (strength pat)) as Hp.
  pose proof (indicator_count_le ind) as Hc.
  assert (Hn : Nat.min n min_periods <= min_periods) by apply Nat.le_min_r.
  destruct (confidence_step_point _ _ _ _ Hn Hc Hp Hts) as [Hdata Hcount].
  rewrite !confidence_as_formula.
  split; [|split; [|split]].
  - replace (Nat.min (S n) min_periods)
      with (Nat.min (S (Nat.min n min_periods)) 200)
      by (unfold min_periods; lia).
    exact Hdata.
  - intros m Hn200 Hm200. rewrite confidence_as_formula.
    now rewrite !Nat.min_r by assumption.
  - intros ind' Hcount'. rewrite confidence_as_formula, Hcount'.
    pose proof (indicator_count_le ind') as Hc'.
    replace (S (indicator_count ind))
      with (Nat.min (S (indicator_count ind)) 17) by lia.
    exact Hcount.
  - intros ind' Hcount'. now rewrite confidence_as_formula, Hcount'.
Qed.

Lemma confidence_never_drops_single_candle :
  PrimFloat.leb
    (_calculate_confidence Sample.no_indicators Sample.no_patterns
                           Sample.single_trend 1)
    (_calculate_confidence Sample.no_indicators Sample.no_patterns
                           Sample.single_trend 2) = true /\
  (forall m, min_periods <= 1 -> min_periods <= m ->
             _calculate_confidence Sample.no_indicators Sample.no_patterns
                                   Sample.single_trend m
             = _calculate_confidence Sample.no_indicators Sample.no_patterns
                                     Sample.single_trend 1) /\
  (forall ind', indicator_count ind' = S (indicator_count Sample.no_indicators) ->
                PrimFloat.leb
                  (_calculate_confidence Sample.no_indicators Sample.no_patterns
                                         Sample.single_trend 1)
                  (_calculate_confidence ind' Sample.no_patterns
                                         Sample.single_trend 1) = true) /\
  (forall ind', indicator_count ind' = indicator_count Sample.no_indicators ->
                _calculate_confidence ind' Sample.no_patterns Sample.single_trend 1
                = _calculate_confidence Sample.no_indicators Sample.no_patterns
                                        Sample.single_trend 1).
Proof.
  apply (confidence_never_drops Sample.no_indicators Sample.no_patterns
           Sample.single_trend [11%float] [12%float] [9%float] 1).
  vm_compute. reflexivity.
Defined.

(** ** The pipeline, continued *)

Lemma nonempty_of_length {A B} (xs : list A) (ys : list B) :
  List.length xs = List.length ys -> ys <> [] -> xs <> [].
Proof. intros Hlen Hys ->. destruct ys; [congruence | discriminate]. Qed.

Lemma np_cumsum_length (xs : list float) :
  List.length (np_cumsum xs) = List.length xs.
Proof.
  destruct xs as [|x rest]; [reflexivity|]. cbn [np_cumsum List.length]. f_equal.
  generalize x. induction rest as [|y ys IH]; intro acc; [reflexivity|].
  cbn [cumsum_from List.length]. now rewrite IH.
Qed.

Lemma np_elementwise_aligned (f : float -> float -> float) (a b : list float) :
  List.length a = List.length b ->
  exists out, np_elementwise f a b = Ok out /\ List.length out = List.length a.
Proof.
  intro Hlen. unfold np_elementwise.
  rewrite (proj2 (Nat.eqb_eq _ _) Hlen).
  eexists. split; [reflexivity|].
  rewrite length_map, length_combine, <- Hlen. apply Nat.min_id.
Qed.

(** Every argument but [vwap] has a value once its array is non-empty. *)
Lemma snapshot_value_returns (k : IndicatorKey) (a : IndicatorArrays) :
  k <> K_vwap -> array_of k a <> [] -> exists v, snapshot_value k a = Ok v.
Proof.
  intros Hk Hne. destruct (last_item_nonempty _ Hne) as [x Hx].
  exists (float_or_none x).
  destruct k; try congruence; cbn [snapshot_value]; rewrite Hx; reflexivity.
Qed.

Ltac snapshot_step :=
  match goal with
  | |- bind (snapshot_value ?k ?a) _ = _ =>
      lazymatch k with
      | K_vwap => fail
      | _ =>
          let v := fresh "v" in
          let H := fresh "H" in
          destruct (snapshot_value_returns k a) as [v H];
          [ discriminate
          | cbn [array_of a_sma_20 a_sma_50 a_sma_200 a_ema_12 a_ema_26 a_rsi_14
                 a_macd a_macd_signal a_macd_hist a_stoch_k a_stoch_d
                 a_bb_upper a_bb_middle a_bb_lower a_atr_14 a_obv];
            eapply nonempty_of_length; eassumption
          | rewrite H; cbn [bind] ]
      end
  end.

(** With every TA-Lib call returning, the snapshot fails at its last
    argument. *)
Lemma _calculate_indicators_attribute_error talib close high low open_prices volume :
  close <> [] ->
  List.length volume = List.length close ->
  talib_returns talib close high low volume ->
  _calculate_indicators talib close high low open_prices volume
  = Raise "AttributeError".
Proof.
  intros Hne Hvol Hlib. unfold talib_returns, returns_n in Hlib. cbv zeta in Hlib.
  destruct Hlib as
    [[s20 [E20 L20]] [[s50 [E50 L50]] [[s200 [E200 L200]]
    [[e12 [E12 L12]] [[e26 [E26 L26]] [[rsi [Ersi Lrsi]]
    [[m [s [h [Emacd [Lm [Ls Lh]]]]]] [[k [d [Estoch [Lk Ld]]]]
    [[u [mid [l [Ebb [Lu [Lmid Ll]]]]]] [[atr [Eatr Latr]] [obv [Eobv Lobv]]]]]]]]]]]].
  unfold _calculate_indicators.
  rewrite E20, E50, E200, E12, E26, Ersi, Emacd. cbn [bind].
  rewrite Estoch. cbn [bind]. rewrite Ebb. cbn [bind].
  rewrite Eatr, Eobv. cbn [bind].
  destruct (np_elementwise_aligned PrimFloat.mul close volume (eq_sym Hvol))
    as [cv [Ecv Lcv]].
  rewrite Ecv. cbn [bind].
  destruct (np_elementwise_aligned PrimFloat.div (np_cumsum cv) (np_cumsum volume))
    as [vwap [Evwap Lvwap]];
    [now rewrite !np_cumsum_length, Lcv, Hvol|].
  rewrite Evwap. cbn [bind].
  repeat snapshot_step.
  rewrite snapshot_value_vwap. reflexivity.
Qed.

(** X1: when every TA-Lib call returns an array as long as a
    non-empty close series, and the volume series is as long,
    [_calculate_indicators] evaluates sixteen of its seventeen snapshot
    arguments and raises [AttributeError] at the last, the [vwap] read
    through [.iloc] on a NumPy array. *)
Theorem indicators_stop_at_vwap talib close high low open_prices volume :
  close <> [] ->
  List.length volume = List.length close ->
  talib_returns talib close high low volume ->
  _calculate_indicators talib close high low open_prices volume
  = Raise "AttributeError"
  /\ (forall k, k <> K_vwap ->
                forall a, array_of k a <> [] -> exists v, snapshot_value k a = Ok v).
Proof.
  intros Hne Hvol Hlib. split.
  - exact (_calculate_indicators_attribute_error _ _ _ _ _ _ Hne Hvol Hlib).
  - intros k Hk a Ha. exact (snapshot_value_returns k a Hk Ha).
Qed.

Lemma indicators_stop_at_vwap_single_candle :
  _calculate_indicators (Sample.talib_double Sample.quiet)
                        [11%float] [12%float] [9%float] [10%float] [100%float]
  = Raise "AttributeError"
  /\ (forall k, k <> K_vwap ->
                forall a, array_of k a <> [] -> exists v, snapshot_value k a = Ok v).
Proof.
  apply (indicators_stop_at_vwap (Sample.talib_double Sample.quiet)
           [11%float] [12%float] [9%float] [10%float] [100%float]).
  - discriminate.
  - reflexivity.
  - unfold talib_returns, returns_n. cbv zeta.
    repeat split; repeat eexists.
Defined.

(** A key some record carries is a column of the frame. *)
Lemma present_column (records : list Candle) (key : string) :
  In key required_fields ->
  existsb (candle_has key) records = true ->
  existsb (String.eqb key) (df_columns (pd_DataFrame records)) = true.
Proof.
  intros Hkey Hsome. apply existsb_exists. exists key.
  split; [|apply String.eqb_refl].
  unfold pd_DataFrame. cbn [df_columns]. apply filter_In. split; [|exact Hsome].
  unfold required_fields in Hkey. cbn [In] in *. tauto.
Qed.

(** X2: a batch in which every required field occurs in some record,
    whose times convert, whose sorted frame has a row, and on whose
    columns every TA-Lib call returns, is not analysed to the end: the
    analysis fails with [AttributeError], before patterns, trend, signals
    and confidence are computed. *)
Theorem complete_batch_fails_at_vwap talib pandas
        (ohlcv_data : list Candle) (times : list (option Z)) :
  (forall key, In key required_fields ->
               existsb (candle_has key) ohlcv_data = true) ->
  to_datetime pandas (map r_timestamp (map row_of ohlcv_data)) = Ok times ->
  let rows :=
    sort_values pandas (df_rows (df_set_timestamp (pd_DataFrame ohlcv_data) times)) in
  rows <> [] ->
  talib_returns talib (map r_close rows) (map r_high rows) (map r_low rows)
                (map r_volume rows) ->
  analyze talib pandas ohlcv_data = Raise "AttributeError".
Proof.
  intros Hfields Htimes rows Hrows Hlib. subst rows.
  assert (Hcol : forall key, In key required_fields ->
            existsb (String.eqb key) (df_columns (pd_DataFrame ohlcv_data)) = true).
  { intros key Hkey. apply present_column; [exact Hkey | exact (Hfields key Hkey)]. }
  unfold analyze. cbv zeta. unfold df_column.
  cbn [df_rows df_columns df_set_timestamp pd_DataFrame] in *.
  rewrite (Hcol "timestamp") by (unfold required_fields; cbn [In]; tauto).
  cbn [bind]. rewrite Htimes. cbn [bind].
  rewrite (Hcol "close"), (Hcol "high"), (Hcol "low"), (Hcol "open"), (Hcol "volume")
    by (unfold required_fields; cbn [In]; tauto).
  cbn [bind].
  rewrite _calculate_indicators_attribute_error; [reflexivity | | | exact Hlib].
  - intro Hnil. apply map_eq_nil in Hnil. exact (Hrows Hnil).
  - now rewrite !length_map.
Qed.

Lemma complete_batch_fails_at_vwap_single_candle :
  analyze (Sample.talib_double Sample.quiet) Sample.pandas_double
          [Sample.one_candle] = Raise "AttributeError".
Proof.
  apply (complete_batch_fails_at_vwap (Sample.talib_double Sample.quiet)
           Sample.pandas_double [Sample.one_candle] [Some 0%Z]).
  - intros key Hkey. unfold required_fields in Hkey. cbn [In] in Hkey.
    repeat destruct Hkey as [<-|Hkey]; try reflexivity. contradiction.
  - reflexivity.
  - discriminate.
  - unfold talib_returns, returns_n. cbv zeta.
    repeat split; repeat eexists.
Defined.

(** X3: [main] never prints an analysis: whatever the arguments, the
    parser and the libraries, the exit status is 1 and the output is the
    usage message -- exactly when fewer than two arguments are given --
    or an error object; a parse error is reported under the parser's own
    error type. *)
Theorem main_never_reports talib pandas json_loads (argv : list string) :
  exit_status (main talib pandas json_loads argv) = 1%Z /\
  (forall r, main talib pandas json_loads argv <> Report r) /\
  (main talib pandas json_loads argv = Usage <-> List.length argv < 2) /\
  (forall prog arg rest e,
      argv = prog :: arg :: rest -> json_loads arg = Raise e ->
      main talib pandas json_loads argv = Failure e).
Proof.
  destruct argv as [|prog [|arg rest]].
  - cbn. repeat split; try discriminate; intros; try discriminate; lia.
  - cbn. repeat split; try discriminate; intros; try discriminate; lia.
  - cbn [main].
    assert (Hfail : exists e,
               (ohlcv_data <- json_loads arg ;; analyze talib pandas ohlcv_data)
               = Raise e).
    { destruct (json_loads arg) as [ohlcv_data|e]; cbn [bind];
        [apply analyze_never_returns | eexists; reflexivity]. }
    destruct Hfail as [e He]. rewrite He.
    repeat split; try discriminate; intros; try discriminate.
    + cbn [List.length] in *. lia.
    + match goal with H : _ :: _ :: _ = _ :: _ :: _ |- _ => injection H as <- <- <- end.
      match goal with H : json_loads _ = Raise _ |- _ => rewrite H in He end.
      cbn [bind] in He. congruence.
Qed.

(** ** Levels of a degenerate candle *)

(** In binary64 the levels of a candle need not be ordered around the
    pivot: when high, low and close are all 0.1, the rounded pivot lies
    above the high, and [s1] above the pivot. *)
Example flat_candle_levels_cross :
  let x := 0x1.999999999999ap-4%float in
  exists tr pivot s1,
    _analyze_trend [x] [x] [x] Sample.no_indicators = Ok tr
    /\ dict_get "pivot" (pivot_points tr) = Some pivot
    /\ dict_get "s1" (pivot_points tr) = Some s1
    /\ PrimFloat.ltb x pivot = true
    /\ PrimFloat.ltb pivot s1 = true.
Proof.
  cbv zeta. do 3 eexists.
  repeat (split; [vm_compute; reflexivity|]).
  vm_compute. reflexivity.
Qed.
